(** * Subscription lifecycle manager: a shallow embedding and its properties

    This development embeds [app/services/subscription_service.py] (together
    with the models and schemas it uses and the GET endpoint of
    [app/api/subscriptions.py]) and proves the lifecycle properties of the
    service.

    Modelling conventions.
    - A table is the list of its rows; an ORM object loaded from a query is a
      pair of the row's position in the table (its identity) and the row's
      attribute values.  Attribute assignments act on the loaded object and
      [commit] writes the object back at its position.
    - Tables with a primary-key lookup only ([plans], [users]) are finite
      maps / sets keyed by the primary key.
    - A [datetime] is a count of microseconds since the epoch, between
      [datetime.min] and [datetime.max]; [timedelta] and the addition of a
      [timedelta] raise OverflowError out of range.  A value read from a
      [DateTime(timezone=True)] column (PostgreSQL through asyncpg, the
      backend of [app/database.py]) is aware, [datetime.utcnow()] is naive,
      and the subtraction of one from the other raises TypeError.
    - Every call of [datetime.utcnow()] and of the database's [now()] is an
      explicit clock reading passed to the operation.
    - The column [updated_at] (maintained by the ORM's [onupdate] hook) is
      not modelled.
    - Nullable columns are [option]-valued; a comparison with SQL NULL selects
      no row. *)

From stdpp Require Import gmap list strings sorting.

Local Open Scope Z_scope.

(** ** Models *)

(** [app/models/subscription.py], [SubscriptionStatus]. *)
Inductive SubscriptionStatus := ACTIVE | INACTIVE | CANCELLED | EXPIRED.

#[global] Instance SubscriptionStatus_eq_dec : EqDecision SubscriptionStatus.
Proof. solve_decision. Defined.

(** A point in time, in microseconds since the epoch. *)
Definition datetime := Z.

(** [datetime.min] (0001-01-01T00:00:00) and [datetime.max]
    (9999-12-31T23:59:59.999999). *)
Definition datetime_min : datetime := -62135596800000000.
Definition datetime_max : datetime := 253402300799999999.

(** A duration, in microseconds. *)
Definition timedelta := Z.

(** The length of [n] days. *)
Definition days (n : Z) : timedelta := n * 86400000000.

(** [app/models/plan.py]: the columns of [Plan] read by the lifecycle code.
    The primary key [id] is the key of the [plans] table. *)
Module Plan.
Record t := mk {
  name : string;
  duration_days : Z;
  is_active : option bool
}.
End Plan.

(** [app/models/subscription.py], [Subscription].  [plan_id] is an attribute
    that [setattr] may assign [None] to; the NOT NULL constraint of its column
    is checked when the row is written. *)
Module Subscription.
Record t := mk {
  id : Z;
  user_id : Z;
  plan_id : option Z;
  status : option SubscriptionStatus;
  start_date : datetime;
  end_date : datetime;
  auto_renew : option bool;
  created_at : datetime
}.

#[global] Instance eq_dec : EqDecision t.
Proof. solve_decision. Defined.

Definition set_plan_id (v : option Z) (s : t) : t :=
  mk (id s) (user_id s) v (status s) (start_date s) (end_date s)
     (auto_renew s) (created_at s).

Definition set_status (v : option SubscriptionStatus) (s : t) : t :=
  mk (id s) (user_id s) (plan_id s) v (start_date s) (end_date s)
     (auto_renew s) (created_at s).

Definition set_end_date (v : datetime) (s : t) : t :=
  mk (id s) (user_id s) (plan_id s) (status s) (start_date s) v
     (auto_renew s) (created_at s).

Definition set_auto_renew (v : option bool) (s : t) : t :=
  mk (id s) (user_id s) (plan_id s) (status s) (start_date s) (end_date s)
     v (created_at s).
End Subscription.

(** ** Schemas ([app/schemas/subscription.py]) *)

Module SubscriptionCreate.
Record t := mk {
  plan_id : Z;
  auto_renew : option bool;
  user_id : Z
}.
End SubscriptionCreate.

(** Every field of [SubscriptionUpdate] is optional and nullable: the outer
    [option] says whether the request set the field, the inner one carries
    the (possibly null) value. *)
Module SubscriptionUpdate.
Record t := mk {
  plan_id : option (option Z);
  auto_renew : option (option bool);
  status : option (option SubscriptionStatus)
}.
End SubscriptionUpdate.

(** One entry of the dictionary returned by [model_dump]. *)
Inductive item :=
| item_plan_id (v : option Z)
| item_auto_renew (v : option bool)
| item_status (v : option SubscriptionStatus).

(** [subscription_data.model_dump(exclude_unset=True)]: the fields that were
    set, in declaration order. *)
Definition model_dump_exclude_unset (d : SubscriptionUpdate.t) : list item :=
  option_list (item_plan_id <$> SubscriptionUpdate.plan_id d) ++
  option_list (item_auto_renew <$> SubscriptionUpdate.auto_renew d) ++
  option_list (item_status <$> SubscriptionUpdate.status d).

(** [update_data["plan_id"]] when ["plan_id" in update_data]. *)
Fixpoint dict_plan_id (update_data : list item) : option (option Z) :=
  match update_data with
  | [] => None
  | item_plan_id v :: _ => Some v
  | _ :: rest => dict_plan_id rest
  end.

(** [setattr(subscription, field, value)]. *)
Definition setattr (s : Subscription.t) (it : item) : Subscription.t :=
  match it with
  | item_plan_id v => Subscription.set_plan_id v s
  | item_auto_renew v => Subscription.set_auto_renew v s
  | item_status v => Subscription.set_status v s
  end.

(** ** Exceptions ([app/core/exceptions.py] and the ORM's) *)

Inductive exn :=
| NotFoundException (detail : string)
| ConflictException (detail : string)
| HTTPException (status_code : Z) (detail : string)
| MultipleResultsFound
| NoResultFound
| IntegrityError
| TypeError
| OverflowError.

(** The HTTP status a raised exception is answered with ([app/main.py]
    answers every ORM error with 500, and an exception without a handler
    ends in 500 as well). *)
Definition status_code (e : exn) : Z :=
  match e with
  | NotFoundException _ => 404
  | ConflictException _ => 409
  | HTTPException c _ => c
  | MultipleResultsFound | NoResultFound | IntegrityError => 500
  | TypeError | OverflowError => 500
  end.

(** ** The database and the session monad *)

Record Db := mkDb {
  users : gset Z;
  plans : gmap Z Plan.t;
  subscriptions : list Subscription.t;
  subscriptions_id_seq : Z
}.

Inductive result (A : Type) :=
| Ok (a : A)
| Raise (e : exn).
Arguments Ok {A} a.
Arguments Raise {A} e.

(** A computation reads and writes the database and returns or raises. *)
Definition M (A : Type) : Type := Db → result A * Db.

Definition ret {A} (a : A) : M A := λ db, (Ok a, db).

Definition raise {A} (e : exn) : M A := λ db, (Raise e, db).

Definition bind {A B} (m : M A) (k : A → M B) : M B :=
  λ db, match m db with
        | (Ok a, db') => k a db'
        | (Raise e, db') => (Raise e, db')
        end.

Notation "x ←- m ;; k" := (bind m (λ x, k))
  (at level 100, m at next level, right associativity,
   format "'[v' x  ←-  m  ;;  '/' k ']'").

(** [await db.execute(q)] for a read-only query [q]. *)
Definition execute {A} (q : Db → A) : M A := λ db, (Ok (q db), db).

(** Lifting of a query result that may raise. *)
Definition lift {A} (r : result A) : M A := λ db, (r, db).

(** ** Python's date arithmetic *)

(** [timedelta(days=n)]: the number of days is bounded by 999999999. *)
Definition timedelta_days (n : Z) : result timedelta :=
  if decide (-999999999 ≤ n ≤ 999999999) then Ok (days n)
  else Raise OverflowError.

(** [t + delta] for a datetime [t]: the sum has to be a datetime. *)
Definition datetime_add (t : datetime) (delta : timedelta) : result datetime :=
  if decide (datetime_min ≤ t + delta ≤ datetime_max) then Ok (t + delta)
  else Raise OverflowError.

(** A datetime value of the program: naive (without time zone, as
    [datetime.utcnow()] returns it) or aware (as an attribute loaded from a
    [DateTime(timezone=True)] column is). *)
Inductive pydatetime :=
| naive (t : datetime)
| aware (t : datetime).

(** [a - b] for two datetimes: a naive and an aware one do not subtract. *)
Definition datetime_sub (a b : pydatetime) : result timedelta :=
  match a, b with
  | naive x, naive y => Ok (x - y)
  | aware x, aware y => Ok (x - y)
  | _, _ => Raise TypeError
  end.

(** ** Query results *)

(** A loaded ORM object: the position of its row and its attributes. *)
Definition object : Type := nat * Subscription.t.

(** [select(Subscription).where(P)]. *)
Definition select_where (P : Subscription.t → Prop) `{∀ s, Decision (P s)}
    (rows : list Subscription.t) : list object :=
  filter (λ o : object, P o.2) (imap pair rows).

(** [result.scalar_one_or_none()]. *)
Definition scalar_one_or_none {A} (rs : list A) : result (option A) :=
  match rs with
  | [] => Ok None
  | [r] => Ok (Some r)
  | _ => Raise MultipleResultsFound
  end.

(** [result.scalar_one()]. *)
Definition scalar_one {A} (rs : list A) : result A :=
  match rs with
  | [] => Raise NoResultFound
  | [r] => Ok r
  | _ => Raise MultipleResultsFound
  end.

(** [select(Plan).where(and_(Plan.id == v, Plan.is_active == True))]: at most
    one row, [id] being the primary key; [Plan.id == None] selects nothing. *)
Definition select_active_plan (v : option Z) (db : Db) : list Plan.t :=
  match v with
  | Some pid =>
      match plans db !! pid with
      | Some p => if decide (Plan.is_active p = Some true) then [p] else []
      | None => []
      end
  | None => []
  end.

(** [select(Plan).where(Plan.id == v)]. *)
Definition select_plan (v : option Z) (db : Db) : list Plan.t :=
  match v with
  | Some pid => option_list (plans db !! pid)
  | None => []
  end.

(** Modelled from the spec: the [User] model ([app/models/user.py]) is not
    among the sources; the user directory answers whether a user id exists
    (section 6, [userExists]), so the [users] table is the set of its primary
    keys and a loaded user is its key.
    [select(User).where(User.id == uid)]. *)
Definition select_user (uid : Z) (db : Db) : list Z :=
  if decide (uid ∈ users db) then [uid] else [].

(** A dirty object of the session: the position of its row, the attributes
    as loaded, and the attributes as assigned since. *)
Definition dirty_object : Type := nat * Subscription.t * Subscription.t.

(** The UPDATE emitted for a dirty object.  Only a changed [plan_id] can
    violate a constraint (NOT NULL). *)
Definition flush_object (d : dirty_object) : M () := λ db,
  let '(i, loaded, current) := d in
  if decide (Subscription.plan_id current = None ∧
             Subscription.plan_id loaded ≠ None)
  then (Raise IntegrityError, db)
  else (Ok (), mkDb (users db) (plans db) (<[i := current]> (subscriptions db))
                    (subscriptions_id_seq db)).

Fixpoint flush (dirty : list dirty_object) : M () :=
  match dirty with
  | [] => ret ()
  | d :: rest => _ ←- flush_object d ;; flush rest
  end.

(** [await db.commit()] with the given dirty objects: one transaction, rolled
    back as a whole when a statement fails. *)
Definition commit (dirty : list dirty_object) : M () := λ db,
  match flush dirty db with
  | (Ok u, db') => (Ok u, db')
  | (Raise e, _) => (Raise e, db)
  end.

(** [db.add(obj); await db.commit(); await db.refresh(obj)] for a new
    subscription: the row is appended with the next key of the sequence and
    the database's clock reading [db_now] as [created_at].  An attribute that
    is [None] is left out of the INSERT, so that the column default applies:
    [auto_renew = Column(Boolean, default=True)]. *)
Definition add_and_commit (db_now : datetime) (user_id : Z) (plan_id : Z)
    (start_date end_date : datetime) (auto_renew : option bool)
    (status : SubscriptionStatus) : M Subscription.t := λ db,
  let row := Subscription.mk (subscriptions_id_seq db) user_id (Some plan_id)
               (Some status) start_date end_date
               (Some (default true auto_renew)) db_now in
  (Ok row, mkDb (users db) (plans db) (subscriptions db ++ [row])
                (subscriptions_id_seq db + 1)).

(** ** The service ([app/services/subscription_service.py]) *)

Module SubscriptionService.

(** [and_(Subscription.user_id == user_id,
          Subscription.status == SubscriptionStatus.ACTIVE)]. *)
Definition active_of (user_id : Z) (s : Subscription.t) : Prop :=
  Subscription.user_id s = user_id ∧ Subscription.status s = Some ACTIVE.

(** [and_(Subscription.user_id == user_id,
          Subscription.status.in_([ACTIVE, INACTIVE]))]. *)
Definition current_of (user_id : Z) (s : Subscription.t) : Prop :=
  Subscription.user_id s = user_id ∧
  (Subscription.status s = Some ACTIVE ∨ Subscription.status s = Some INACTIVE).

(** [and_(Subscription.status == SubscriptionStatus.ACTIVE,
          Subscription.end_date <= current_time)]. *)
Definition due (current_time : datetime) (s : Subscription.t) : Prop :=
  Subscription.status s = Some ACTIVE ∧ Subscription.end_date s ≤ current_time.

#[global] Instance active_of_dec user_id s : Decision (active_of user_id s).
Proof. unfold active_of. apply _. Defined.

#[global] Instance current_of_dec user_id s : Decision (current_of user_id s).
Proof. unfold current_of. apply _. Defined.

#[global] Instance due_dec current_time s : Decision (due current_time s).
Proof. unfold due, datetime. apply _. Defined.

(** [Subscription.created_at.desc()]: [a] may come before [b]. *)
Definition created_at_desc (a b : object) : Prop :=
  Subscription.created_at b.2 ≤ Subscription.created_at a.2.

#[global] Instance created_at_desc_dec : RelDecision created_at_desc.
Proof. intros a b. unfold created_at_desc, datetime. apply _. Defined.

(** [.order_by(Subscription.created_at.desc())]. *)
Definition order_by_created_at_desc (rs : list object) : list object :=
  merge_sort created_at_desc rs.

Definition get_active_subscription_by_user (user_id : Z) : M (option object) :=
  result ←- execute (λ db, select_where (active_of user_id) (subscriptions db)) ;;
  lift (scalar_one_or_none result).

Definition get_subscription_by_user (user_id : Z) : M (option object) :=
  result ←- execute (λ db,
    order_by_created_at_desc
      (select_where (current_of user_id) (subscriptions db))) ;;
  lift (scalar_one_or_none result).

Definition create_subscription (now db_now : datetime)
    (subscription_data : SubscriptionCreate.t) : M Subscription.t :=
  user_result ←- execute (select_user (SubscriptionCreate.user_id subscription_data)) ;;
  user ←- lift (scalar_one_or_none user_result) ;;
  match user with
  | None => raise (NotFoundException "User not found")
  | Some _ =>
    plan_result ←- execute (select_active_plan
                     (Some (SubscriptionCreate.plan_id subscription_data))) ;;
    plan ←- lift (scalar_one_or_none plan_result) ;;
    match plan with
    | None => raise (NotFoundException "Plan not found or inactive")
    | Some plan =>
      existing_subscription ←- get_active_subscription_by_user
                                (SubscriptionCreate.user_id subscription_data) ;;
      match existing_subscription with
      | Some _ => raise (ConflictException "User already has an active subscription")
      | None =>
        let start_date := now in
        delta ←- lift (timedelta_days (Plan.duration_days plan)) ;;
        end_date ←- lift (datetime_add start_date delta) ;;
        add_and_commit db_now
          (SubscriptionCreate.user_id subscription_data)
          (SubscriptionCreate.plan_id subscription_data)
          start_date end_date
          (SubscriptionCreate.auto_renew subscription_data)
          ACTIVE
      end
    end
  end.

(** The block under [if "plan_id" in update_data]: the plan lookups and the
    recomputation of [end_date].  [now_remaining] and [now_reset] are the two
    successive readings of [datetime.utcnow()]; [subscription.end_date] is
    the attribute as loaded from its column. *)
Definition handle_plan_change (now_remaining now_reset : datetime)
    (update_data : list item) (subscription : Subscription.t)
    : M Subscription.t :=
  match dict_plan_id update_data with
  | Some v =>
    plan_result ←- execute (select_active_plan v) ;;
    plan ←- lift (scalar_one_or_none plan_result) ;;
    match plan with
    | None => raise (NotFoundException "Plan not found or inactive")
    | Some plan =>
      current_plan_result ←- execute (select_plan (Subscription.plan_id subscription)) ;;
      current_plan ←- lift (scalar_one current_plan_result) ;;
      if decide (Plan.duration_days plan ≠ Plan.duration_days current_plan)
      then
        remaining_time ←- lift (datetime_sub
                                  (aware (Subscription.end_date subscription))
                                  (naive now_remaining)) ;;
        delta ←- lift (timedelta_days (Plan.duration_days plan)) ;;
        end_date ←- lift (datetime_add now_reset delta) ;;
        ret (Subscription.set_end_date end_date subscription)
      else ret subscription
    end
  | None => ret subscription
  end.

Definition update_subscription (now_remaining now_reset : datetime)
    (user_id : Z) (subscription_data : SubscriptionUpdate.t)
    : M Subscription.t :=
  subscription ←- get_active_subscription_by_user user_id ;;
  match subscription with
  | None => raise (NotFoundException "No active subscription found for user")
  | Some (i, loaded) =>
    let update_data := model_dump_exclude_unset subscription_data in
    subscription ←- handle_plan_change now_remaining now_reset update_data loaded ;;
    let subscription := foldl setattr subscription update_data in
    _ ←- commit [(i, loaded, subscription)] ;;
    ret subscription
  end.

Definition cancel_subscription (user_id : Z) : M Subscription.t :=
  subscription ←- get_active_subscription_by_user user_id ;;
  match subscription with
  | None => raise (NotFoundException "No active subscription found for user")
  | Some (i, loaded) =>
    let subscription := Subscription.set_status (Some CANCELLED) loaded in
    let subscription := Subscription.set_auto_renew (Some false) subscription in
    _ ←- commit [(i, loaded, subscription)] ;;
    ret subscription
  end.

(** The body of the [for] loop of [expire_subscriptions]: the object is
    marked EXPIRED (and thereby dirty) and counted. *)
Definition expire_one (acc : list dirty_object * Z) (o : object)
    : list dirty_object * Z :=
  (acc.1 ++ [(o.1, o.2, Subscription.set_status (Some EXPIRED) o.2)], acc.2 + 1).

Definition expire_subscriptions (current_time : datetime) : M Z :=
  expired_subscriptions ←- execute (λ db,
    select_where (due current_time) (subscriptions db)) ;;
  let '(dirty, count) := foldl expire_one ([], 0) expired_subscriptions in
  if decide (count > 0)
  then _ ←- commit dirty ;; ret count
  else ret count.

(** [Subscription.id == subscription_id]. *)
Definition has_id (subscription_id : Z) (s : Subscription.t) : Prop :=
  Subscription.id s = subscription_id.

(** [Subscription.status == status]. *)
Definition has_status (status : SubscriptionStatus) (s : Subscription.t)
    : Prop :=
  Subscription.status s = Some status.

(** The empty WHERE clause. *)
Definition any_row (s : Subscription.t) : Prop := True.

#[global] Instance has_id_dec subscription_id s :
  Decision (has_id subscription_id s).
Proof. unfold has_id. apply _. Defined.

#[global] Instance has_status_dec status s : Decision (has_status status s).
Proof. unfold has_status. apply _. Defined.

#[global] Instance any_row_dec s : Decision (any_row s).
Proof. unfold any_row. apply _. Defined.

Definition get_subscription_by_id (subscription_id : Z) : M (option object) :=
  result ←- execute (λ db,
    select_where (has_id subscription_id) (subscriptions db)) ;;
  lift (scalar_one_or_none result).

(** [if status:] holds for every member of the enumeration (a plain [Enum]
    member is true), so the filter is applied exactly when a status is given.
    The rows come in table order; SQL promises no order here. *)
Definition get_all_subscriptions (status : option SubscriptionStatus)
    : M (list object) :=
  match status with
  | Some status =>
      execute (λ db, select_where (has_status status) (subscriptions db))
  | None => execute (λ db, select_where any_row (subscriptions db))
  end.

End SubscriptionService.

(** ** The plan service ([app/services/plan_service.py])

    The functions that read the catalog and the soft delete.  A loaded plan
    is identified by its primary key. *)

Module PlanService.

Definition get_plan_by_id (plan_id : Z) : M (option Plan.t) :=
  result ←- execute (select_plan (Some plan_id)) ;;
  lift (scalar_one_or_none result).

(** [select(Plan)] and [select(Plan).where(Plan.is_active == True)], each
    row with its key. *)
Definition get_all_plans (include_inactive : bool) : M (list (Z * Plan.t)) :=
  if include_inactive
  then execute (λ db, map_to_list (plans db))
  else execute (λ db,
         filter (λ kp : Z * Plan.t, Plan.is_active kp.2 = Some true)
                (map_to_list (plans db))).

(** The UPDATE of a plan row at commit. *)
Definition commit_plan (plan_id : Z) (plan : Plan.t) : M () := λ db,
  (Ok (), mkDb (users db) (<[plan_id := plan]> (plans db)) (subscriptions db)
               (subscriptions_id_seq db)).

Definition delete_plan (plan_id : Z) : M bool :=
  plan ←- get_plan_by_id plan_id ;;
  match plan with
  | None => raise (NotFoundException "Plan not found")
  | Some plan =>
    let plan := Plan.mk (Plan.name plan) (Plan.duration_days plan) (Some false) in
    _ ←- commit_plan plan_id plan ;;
    ret true
  end.

End PlanService.

(** ** The endpoint [GET /subscriptions/{user_id}] ([app/api/subscriptions.py])

    [current_user_id] is [current_user.id], the key of the authenticated
    user that the dependency [get_current_active_user] provides. *)

Definition get_user_subscription (user_id : Z) (current_user_id : Z)
    : M Subscription.t :=
  if decide (user_id ≠ current_user_id)
  then raise (HTTPException 403 "Not authorized to access this subscription")
  else
    subscription ←- SubscriptionService.get_subscription_by_user user_id ;;
    match subscription with
    | None => raise (HTTPException 404 "No subscription found for user")
    | Some o => ret o.2
    end.

(** ** The other endpoints of [app/api/subscriptions.py] *)

Module SubscriptionsApi.

(** POST /subscriptions. *)
Definition create_subscription (now db_now : datetime)
    (subscription_data : SubscriptionCreate.t) (current_user_id : Z)
    : M (option object) :=
  let subscription_data :=
    if decide (SubscriptionCreate.user_id subscription_data ≠ current_user_id)
    then SubscriptionCreate.mk (SubscriptionCreate.plan_id subscription_data)
           (SubscriptionCreate.auto_renew subscription_data) current_user_id
    else subscription_data in
  subscription ←- SubscriptionService.create_subscription now db_now
                    subscription_data ;;
  SubscriptionService.get_subscription_by_id (Subscription.id subscription).

(** PUT /subscriptions/{user_id}. *)
Definition update_user_subscription (now_remaining now_reset : datetime)
    (user_id : Z) (subscription_data : SubscriptionUpdate.t)
    (current_user_id : Z) : M (option object) :=
  if decide (user_id ≠ current_user_id)
  then raise (HTTPException 403 "Not authorized to update this subscription")
  else
    subscription ←- SubscriptionService.update_subscription
                      now_remaining now_reset user_id subscription_data ;;
    SubscriptionService.get_subscription_by_id (Subscription.id subscription).

(** DELETE /subscriptions/{user_id}; the value is the message returned. *)
Definition cancel_user_subscription (user_id : Z) (current_user_id : Z)
    : M string :=
  if decide (user_id ≠ current_user_id)
  then raise (HTTPException 403 "Not authorized to cancel this subscription")
  else
    _ ←- SubscriptionService.cancel_subscription user_id ;;
    ret "Subscription cancelled successfully".

(** GET /subscriptions. *)
Definition get_all_subscriptions (status_filter : option SubscriptionStatus)
    (current_user_id : Z) : M (list object) :=
  SubscriptionService.get_all_subscriptions status_filter.

End SubscriptionsApi.

(** ** The endpoint [GET /plans/{plan_id}] ([app/api/plans.py])

    The module imports [APIRouter], [Depends] and [status] from [fastapi]
    and nothing else of it, so the name [HTTPException] of the [raise]
    statement is unbound when the statement runs. *)

Inductive endpoint_result (A : Type) :=
| Returned (a : A)
| Raised (e : exn)
| NameError (name : string).
Arguments Returned {A} a.
Arguments Raised {A} e.
Arguments NameError {A} name.

Module PlansApi.

Definition get_plan (plan_id : Z) (db : Db) : endpoint_result Plan.t * Db :=
  match PlanService.get_plan_by_id plan_id db with
  | (Ok (Some plan), db') => (Returned plan, db')
  | (Ok None, db') => (NameError "HTTPException", db')
  | (Raise e, db') => (Raised e, db')
  end.

(** DELETE /plans/{plan_id}; the value is the message returned. *)
Definition delete_plan (plan_id : Z) (current_user_id : Z) : M string :=
  _ ←- PlanService.delete_plan plan_id ;;
  ret "Plan deleted successfully".

End PlansApi.

(** ** Sequences of lifecycle calls *)

Inductive call :=
| call_create (now db_now : datetime) (subscription_data : SubscriptionCreate.t)
| call_update (now_remaining now_reset : datetime) (user_id : Z)
    (subscription_data : SubscriptionUpdate.t)
| call_cancel (user_id : Z)
| call_expire (current_time : datetime).

(** The database left behind by one call, whether it returned or raised. *)
Definition run_call (db : Db) (c : call) : Db :=
  match c with
  | call_create now db_now d =>
      (SubscriptionService.create_subscription now db_now d db).2
  | call_update t1 t2 u d =>
      (SubscriptionService.update_subscription t1 t2 u d db).2
  | call_cancel u => (SubscriptionService.cancel_subscription u db).2
  | call_expire t => (SubscriptionService.expire_subscriptions t db).2
  end.

Definition run_calls (db : Db) (cs : list call) : Db := foldl run_call db cs.

(** ** Specification predicates *)

(** I1 on a table: two ACTIVE rows of one user are the same row. *)
Definition at_most_one_active (rows : list Subscription.t) : Prop :=
  ∀ i j si sj,
    rows !! i = Some si → rows !! j = Some sj →
    Subscription.status si = Some ACTIVE →
    Subscription.status sj = Some ACTIVE →
    Subscription.user_id si = Subscription.user_id sj →
    i = j.

Definition I1 (db : Db) : Prop := at_most_one_active (subscriptions db).

(** The user has an ACTIVE subscription row. *)
Definition has_active (db : Db) (user_id : Z) : Prop :=
  ∃ i s, subscriptions db !! i = Some s ∧
         SubscriptionService.active_of user_id s.

(** Row [i], with attributes [s], is the ACTIVE subscription of the user. *)
Definition the_active (db : Db) (user_id : Z) (i : nat) (s : Subscription.t)
    : Prop :=
  subscriptions db !! i = Some s ∧ SubscriptionService.active_of user_id s ∧
  ∀ j s', subscriptions db !! j = Some s' →
          SubscriptionService.active_of user_id s' → j = i.

(** [start_date + timedelta(days=duration_days)] is a datetime. *)
Definition end_date_representable (start_date : datetime) (duration_days : Z)
    : Prop :=
  -999999999 ≤ duration_days ≤ 999999999 ∧
  datetime_min ≤ start_date + days duration_days ≤ datetime_max.

(** The plan exists and is active. *)
Definition active_plan (db : Db) (plan_id : Z) (p : Plan.t) : Prop :=
  plans db !! plan_id = Some p ∧ Plan.is_active p = Some true.

(** The plan is missing or not active. *)
Definition no_active_plan (db : Db) (plan_id : Z) : Prop :=
  ∀ p, ¬ active_plan db plan_id p.

(** The terminal states of the lifecycle. *)
Definition terminal (s : Subscription.t) : Prop :=
  Subscription.status s = Some CANCELLED ∨ Subscription.status s = Some EXPIRED.

Definition no_inactive (db : Db) : Prop :=
  ∀ i s, subscriptions db !! i = Some s →
         Subscription.status s ≠ Some INACTIVE.

(** The call is an update whose payload sets [status] to INACTIVE. *)
Definition sets_inactive (c : call) : Prop :=
  match c with
  | call_update _ _ _ d => SubscriptionUpdate.status d = Some (Some INACTIVE)
  | _ => False
  end.

(** The database with its subscriptions table replaced. *)
Definition with_subscriptions (rows : list Subscription.t) (db : Db) : Db :=
  mkDb (users db) (plans db) rows (subscriptions_id_seq db).

(** What [expire_subscriptions] does to one row. *)
Definition expire_row (current_time : datetime) (s : Subscription.t)
    : Subscription.t :=
  if decide (SubscriptionService.due current_time s)
  then Subscription.set_status (Some EXPIRED) s
  else s.

(** The dirty object the loop makes of a selected object. *)
Definition mark_expired (o : object) : dirty_object :=
  (o.1, o.2, Subscription.set_status (Some EXPIRED) o.2).

(** The UPDATEs of a commit after the loop, as writes to the table. *)
Definition write_expired (rows : list Subscription.t) (o : object)
    : list Subscription.t :=
  <[o.1 := Subscription.set_status (Some EXPIRED) o.2]> rows.

(** The [status] field of the payload of an update call, if the call is an
    update and sets it. *)
Definition payload_status (c : call) : option (option SubscriptionStatus) :=
  match c with
  | call_update _ _ _ d => SubscriptionUpdate.status d
  | _ => None
  end.

(** Where row [i] of the table left by a call comes from: it is a row of the
    table before the call, untouched; or it is the rewrite of a row that was
    ACTIVE, of the same user, now ACTIVE, CANCELLED, EXPIRED or what the
    update payload says; or it is a new ACTIVE row at the end of the table,
    of a user who had no ACTIVE row. *)
Inductive row_origin (db : Db) (c : call) (i : nat) (s' : Subscription.t)
    : Prop :=
| row_kept :
    subscriptions db !! i = Some s' → row_origin db c i s'
| row_rewritten s :
    subscriptions db !! i = Some s →
    Subscription.status s = Some ACTIVE →
    Subscription.user_id s' = Subscription.user_id s →
    Subscription.status s' = Some ACTIVE ∨
    Subscription.status s' = Some CANCELLED ∨
    Subscription.status s' = Some EXPIRED ∨
    payload_status c = Some (Subscription.status s') →
    row_origin db c i s'
| row_created :
    i = length (subscriptions db) →
    Subscription.status s' = Some ACTIVE →
    ¬ has_active db (Subscription.user_id s') →
    row_origin db c i s'.

(** ** Further specification predicates *)

(** The row that a successful [create_subscription] inserts. *)
Definition new_subscription (db : Db) (now db_now : datetime)
    (d : SubscriptionCreate.t) (p : Plan.t) : Subscription.t :=
  Subscription.mk (subscriptions_id_seq db) (SubscriptionCreate.user_id d)
    (Some (SubscriptionCreate.plan_id d)) (Some ACTIVE) now
    (now + days (Plan.duration_days p))
    (Some (default true (SubscriptionCreate.auto_renew d))) db_now.

(** What one lifecycle call does to the database: nothing; or the insertion
    of a create whose three checks passed and whose end date is a datetime;
    or the rewrite of the ACTIVE row
    of the user by an update (the new plan, if any, is an active one) or by
    a cancel; or the sweep of an expire. *)
Inductive effect (db : Db) : call → Db → Prop :=
| effect_none c : effect db c db
| effect_create now db_now d p :
    SubscriptionCreate.user_id d ∈ users db →
    active_plan db (SubscriptionCreate.plan_id d) p →
    ¬ has_active db (SubscriptionCreate.user_id d) →
    end_date_representable now (Plan.duration_days p) →
    effect db (call_create now db_now d)
      (mkDb (users db) (plans db)
            (subscriptions db ++ [new_subscription db now db_now d p])
            (subscriptions_id_seq db + 1))
| effect_update t1 t2 u d i s e :
    subscriptions db !! i = Some s →
    SubscriptionService.active_of u s →
    match SubscriptionUpdate.plan_id d with
    | None => True
    | Some v => ∃ pid p, v = Some pid ∧ active_plan db pid p
    end →
    effect db (call_update t1 t2 u d)
      (with_subscriptions
         (<[i := foldl setattr (Subscription.set_end_date e s)
                   (model_dump_exclude_unset d)]> (subscriptions db)) db)
| effect_cancel u i s :
    subscriptions db !! i = Some s →
    SubscriptionService.active_of u s →
    effect db (call_cancel u)
      (with_subscriptions
         (<[i := Subscription.set_auto_renew (Some false)
                   (Subscription.set_status (Some CANCELLED) s)]>
            (subscriptions db)) db)
| effect_expire t :
    effect db (call_expire t)
      (with_subscriptions (expire_row t <$> subscriptions db) db).

(** The columns no call assigns. *)
Definition same_identity (s s' : Subscription.t) : Prop :=
  Subscription.id s' = Subscription.id s ∧
  Subscription.user_id s' = Subscription.user_id s ∧
  Subscription.start_date s' = Subscription.start_date s ∧
  Subscription.created_at s' = Subscription.created_at s.

(** The keys of the subscriptions are below the next key of the sequence,
    and no two rows share a key. *)
Definition ids_ok (db : Db) : Prop :=
  (∀ i s, subscriptions db !! i = Some s →
          Subscription.id s < subscriptions_id_seq db) ∧
  (∀ i j si sj, subscriptions db !! i = Some si →
                subscriptions db !! j = Some sj →
                Subscription.id si = Subscription.id sj → i = j).

(** The foreign keys of the subscriptions: the user and the plan of every
    row exist. *)
Definition ref_integrity (db : Db) : Prop :=
  ∀ i s, subscriptions db !! i = Some s →
    Subscription.user_id s ∈ users db ∧
    ∃ pid, Subscription.plan_id s = Some pid ∧ is_Some (plans db !! pid).






(** The requests of one authenticated user to the endpoints that take a
    user id or a payload of the user. *)
Inductive request :=
| POST_subscription (now db_now : datetime)
    (subscription_data : SubscriptionCreate.t)
| GET_subscription (user_id : Z)
| PUT_subscription (now_remaining now_reset : datetime) (user_id : Z)
    (subscription_data : SubscriptionUpdate.t)
| DELETE_subscription (user_id : Z)
| GET_subscriptions (status_filter : option SubscriptionStatus).

(** The database after the request of user [current_user_id] was served. *)
Definition serve (current_user_id : Z) (db : Db) (r : request) : Db :=
  match r with
  | POST_subscription now db_now d =>
      (SubscriptionsApi.create_subscription now db_now d current_user_id db).2
  | GET_subscription u => (get_user_subscription u current_user_id db).2
  | PUT_subscription t1 t2 u d =>
      (SubscriptionsApi.update_user_subscription t1 t2 u d current_user_id db).2
  | DELETE_subscription u =>
      (SubscriptionsApi.cancel_user_subscription u current_user_id db).2
  | GET_subscriptions f =>
      (SubscriptionsApi.get_all_subscriptions f current_user_id db).2
  end.

(** The call acts on behalf of user [u]. *)
Definition targets (u : Z) (c : call) : Prop :=
  match c with
  | call_create _ _ d => SubscriptionCreate.user_id d = u
  | call_update _ _ u' _ => u' = u
  | call_cancel u' => u' = u
  | call_expire _ => False
  end.

(** Lifecycle calls interleaved with soft deletions of plans. *)
Inductive action :=
| lifecycle (c : call)
| plan_deletion (plan_id : Z).

Definition run_action (db : Db) (a : action) : Db :=
  match a with
  | lifecycle c => run_call db c
  | plan_deletion plan_id => (PlanService.delete_plan plan_id db).2
  end.

Definition run_actions (db : Db) (acts : list action) : Db :=
  foldl run_action db acts.

(** ** Example data

    The seed plans Basic, Pro (30 days) and Annual Basic (365 days, here
    withdrawn) of [scripts/seed_data.py], a 14-day plan, three users, and a
    few tables. *)

Definition example_plans : gmap Z Plan.t :=
  <[1 := Plan.mk "Basic" 30 (Some true)]>
    (<[2 := Plan.mk "Fortnight" 14 (Some true)]>
       (<[3 := Plan.mk "Annual Basic" 365 (Some false)]>
          (<[4 := Plan.mk "Pro" 30 (Some true)]> ∅))).

Definition example_users : gset Z := {[1; 2; 3]}.

(** No subscription yet. *)
Definition example_db_empty : Db := mkDb example_users example_plans [] 1.

(** The subscription of user 1 to Basic, created at time 1000. *)
Definition example_row (st : option SubscriptionStatus) (auto_renew : bool)
    : Subscription.t :=
  Subscription.mk 1 1 (Some 1) st 1000 2592000001000 (Some auto_renew) 1001.

(** User 1 has an ACTIVE subscription. *)
Definition example_db_active : Db :=
  mkDb example_users example_plans [example_row (Some ACTIVE) true] 2.

(** User 1 has a CANCELLED subscription and nothing else. *)
Definition example_db_cancelled : Db :=
  mkDb example_users example_plans [example_row (Some CANCELLED) false] 2.

(** Three ACTIVE subscriptions ending at 4999, 5000 and 5001. *)
Definition example_db_three : Db :=
  mkDb example_users example_plans
    [Subscription.mk 1 1 (Some 1) (Some ACTIVE) 1000 4999 (Some true) 1001;
     Subscription.mk 2 2 (Some 1) (Some ACTIVE) 1000 5000 (Some true) 1001;
     Subscription.mk 3 3 (Some 1) (Some ACTIVE) 1000 5001 (Some true) 1001] 4.

(** User 1 has an INACTIVE subscription and a later ACTIVE one. *)
Definition example_db_two_current : Db :=
  mkDb example_users example_plans
    [example_row (Some INACTIVE) true;
     Subscription.mk 2 1 (Some 2) (Some ACTIVE) 3000 1209600003000 (Some true)
       3001] 3.

(** No subscription yet, and a plan of 3000000 days in the catalog. *)
Definition example_db_long_plan : Db :=
  mkDb example_users
    (<[5 := Plan.mk "Millennia" 3000000 (Some true)]> example_plans) [] 1.

(** The scenario of the specification: create, a second create, cancel,
    create again. *)
Definition example_scenario : list call :=
  [call_create 1000 1001 (SubscriptionCreate.mk 1 (Some true) 1);
   call_create 2000 2001 (SubscriptionCreate.mk 2 (Some true) 1);
   call_cancel 1;
   call_create 3000 3001 (SubscriptionCreate.mk 2 (Some true) 1)].

(** * Properties *)

(** ** Queries *)

Lemma filter_none {A} (P : A → Prop) `{∀ x, Decision (P x)} (l : list A) :
  (∀ x, x ∈ l → ¬ P x) → filter P l = [].
Proof.
  induction l as [|x l IH]; intros Hno; [done|].
  rewrite filter_cons, decide_False by (apply Hno; left).
  apply IH. intros y Hy. apply Hno. by right.
Qed.

Section queries.
Context (P : Subscription.t → Prop) `{∀ s, Decision (P s)}.

Lemma select_where_elem (rows : list Subscription.t) i s :
  (i, s) ∈ select_where P rows ↔ rows !! i = Some s ∧ P s.
Proof.
  unfold select_where. rewrite list_elem_of_filter, elem_of_lookup_imap. simpl.
  split.
  - intros (HP & j & y & [= -> ->] & Hl). done.
  - intros [Hl HP]. split; [done|]. by exists i, s.
Qed.

Lemma select_where_positions (rows : list Subscription.t) :
  NoDup (select_where P rows).*1.
Proof.
  unfold select_where.
  apply (sublist_NoDup _ ((imap pair rows).*1)).
  - rewrite fmap_imap.
    replace (imap (λ n, fst ∘ pair n) rows) with (seq 0 (length rows)).
    + apply NoDup_seq.
    + apply list_eq. intros i. rewrite list_lookup_imap.
      destruct (rows !! i) eqn:Hi; simpl.
      * apply lookup_seq. split; [done|]. by eapply lookup_lt_Some.
      * apply lookup_seq_ge. by apply lookup_ge_None.
  - apply fmap_sublist, sublist_filter.
Qed.

Lemma select_where_NoDup (rows : list Subscription.t) :
  NoDup (select_where P rows).
Proof. eapply NoDup_fmap_1, select_where_positions. Qed.

Lemma select_where_nil (rows : list Subscription.t) :
  select_where P rows = [] ↔ ∀ i s, rows !! i = Some s → ¬ P s.
Proof.
  split.
  - intros Hnil i s Hl HP.
    assert ((i, s) ∈ select_where P rows) as Hin by by apply select_where_elem.
    rewrite Hnil in Hin. by apply elem_of_nil in Hin.
  - intros Hno. destruct (select_where P rows) as [|[i s] l] eqn:Hsel; [done|].
    assert ((i, s) ∈ select_where P rows) as Hin by (rewrite Hsel; left).
    apply select_where_elem in Hin as [Hl HP]. by destruct (Hno i s).
Qed.

(** When exactly one row satisfies the condition, the query returns that row
    and nothing else. *)
Lemma select_where_unique (rows : list Subscription.t) i s :
  rows !! i = Some s → P s →
  (∀ j s', rows !! j = Some s' → P s' → j = i) →
  select_where P rows = [(i, s)].
Proof.
  intros Hl HP Huniq.
  assert (∀ o, o ∈ select_where P rows → o = (i, s)) as Hall.
  { intros [j s'] [Hj HP']%select_where_elem.
    pose proof (Huniq j s' Hj HP') as ->. congruence. }
  assert ((i, s) ∈ select_where P rows) as Hin by by apply select_where_elem.
  pose proof (select_where_NoDup rows) as Hnd.
  destruct (select_where P rows) as [|o [|o' l]].
  - by apply elem_of_nil in Hin.
  - f_equal. apply Hall. left.
  - exfalso. apply NoDup_cons in Hnd as [Hnot _]. apply Hnot.
    rewrite (Hall o) by left. rewrite (Hall o') by (right; left). left.
Qed.

(** The number of objects returned is the number of rows that qualify. *)
Lemma select_where_length (rows : list Subscription.t) :
  length (select_where P rows) = length (filter P rows).
Proof.
  unfold select_where.
  assert (∀ f : nat → Subscription.t → object, (∀ i s, (f i s).2 = s) →
    length (filter (λ o : object, P o.2) (imap f rows)) =
    length (filter P rows)) as Hgen; [|by apply Hgen].
  induction rows as [|s rows IH]; intros f Hf; [done|].
  simpl. rewrite !filter_cons, Hf.
  destruct (decide (P s)); simpl; rewrite IH; auto; intros i s'; apply Hf.
Qed.

End queries.

(** ** The session *)

Lemma with_subscriptions_id db : with_subscriptions (subscriptions db) db = db.
Proof. by destruct db. Qed.

Lemma commit_single i loaded current db :
  ¬ (Subscription.plan_id current = None ∧ Subscription.plan_id loaded ≠ None) →
  commit [(i, loaded, current)] db =
    (Ok (), with_subscriptions (<[i := current]> (subscriptions db)) db).
Proof.
  intros Hok. unfold commit, flush, bind, flush_object.
  by rewrite decide_False.
Qed.

Lemma commit_single_rejected i loaded current db :
  Subscription.plan_id current = None ∧ Subscription.plan_id loaded ≠ None →
  commit [(i, loaded, current)] db = (Raise IntegrityError, db).
Proof.
  intros Hbad. unfold commit, flush, bind, flush_object.
  by rewrite decide_True.
Qed.

Lemma get_active_subscription_by_user_run user_id db :
  SubscriptionService.get_active_subscription_by_user user_id db =
    (scalar_one_or_none
       (select_where (SubscriptionService.active_of user_id) (subscriptions db)),
     db).
Proof. reflexivity. Qed.

Lemma get_active_found db user_id i s :
  the_active db user_id i s →
  SubscriptionService.get_active_subscription_by_user user_id db =
    (Ok (Some (i, s)), db).
Proof.
  intros (Hl & Hact & Huniq). rewrite get_active_subscription_by_user_run.
  by rewrite (select_where_unique _ _ i s).
Qed.

Lemma get_active_none db user_id :
  ¬ has_active db user_id →
  SubscriptionService.get_active_subscription_by_user user_id db = (Ok None, db).
Proof.
  intros Hno. rewrite get_active_subscription_by_user_run.
  replace (select_where _ _) with (@nil object); [done|].
  symmetry. apply select_where_nil. intros i s Hl Hact.
  apply Hno. by exists i, s.
Qed.

(** Under I1, a user with an ACTIVE row has exactly that one. *)
Lemma has_active_the_active db user_id :
  I1 db → has_active db user_id → ∃ i s, the_active db user_id i s.
Proof.
  intros HI (i & s & Hl & Hact). exists i, s. split; [done|]. split; [done|].
  intros j s' Hj [Hu' Hs']. destruct Hact as [Hu Hs].
  apply (HI j i s' s); congruence.
Qed.

(** The lookup of the ACTIVE subscription never writes, and what it returns
    is an ACTIVE row of the user. *)
Lemma get_active_inv user_id db r db' :
  SubscriptionService.get_active_subscription_by_user user_id db = (r, db') →
  db' = db ∧
  ∀ o, r = Ok (Some o) →
       subscriptions db !! o.1 = Some o.2 ∧
       SubscriptionService.active_of user_id o.2.
Proof.
  rewrite get_active_subscription_by_user_run. intros [= <- <-].
  split; [done|]. intros [i s] Hr.
  destruct (select_where _ _) as [|o [|]] eqn:Hsel; simplify_eq/=.
  apply (select_where_elem (SubscriptionService.active_of user_id)).
  rewrite Hsel. left.
Qed.

(** ** Cancel *)

(** C7. [cancel_subscription] for a user whose ACTIVE subscription is row [i]
    returns that subscription with status CANCELLED and [auto_renew] false,
    and writes exactly that to row [i]; for a user without an ACTIVE
    subscription it raises NotFound and leaves the database as it was. *)
Theorem cancel_subscription_spec db user_id :
  (∀ i s, the_active db user_id i s →
     let s' := Subscription.set_auto_renew (Some false)
                 (Subscription.set_status (Some CANCELLED) s) in
     SubscriptionService.cancel_subscription user_id db =
       (Ok s', with_subscriptions (<[i := s']> (subscriptions db)) db) ∧
     Subscription.status s' = Some CANCELLED ∧
     Subscription.auto_renew s' = Some false ∧
     subscriptions
       (SubscriptionService.cancel_subscription user_id db).2 !! i = Some s') ∧
  (¬ has_active db user_id →
     SubscriptionService.cancel_subscription user_id db =
       (Raise (NotFoundException "No active subscription found for user"), db)).
Proof.
  split.
  - intros i s Hthe s'.
    assert (SubscriptionService.cancel_subscription user_id db =
      (Ok s', with_subscriptions (<[i := s']> (subscriptions db)) db)) as Hrun.
    { unfold SubscriptionService.cancel_subscription, bind.
      rewrite (get_active_found _ _ _ _ Hthe).
      rewrite commit_single; [done|]. simpl. tauto. }
    rewrite Hrun. repeat split. simpl.
    apply list_lookup_insert_eq. destruct Hthe as [Hl _].
    by eapply lookup_lt_Some.
  - intros Hno. unfold SubscriptionService.cancel_subscription, bind.
    by rewrite get_active_none.
Qed.

(** ** Create *)

Lemma select_active_plan_found db plan_id p :
  active_plan db plan_id p → select_active_plan (Some plan_id) db = [p].
Proof.
  intros [Hp Hact]. unfold select_active_plan. rewrite Hp.
  by rewrite decide_True.
Qed.

Lemma select_active_plan_none db plan_id :
  no_active_plan db plan_id → select_active_plan (Some plan_id) db = [].
Proof.
  intros Hno. unfold select_active_plan.
  destruct (plans db !! plan_id) as [p|] eqn:Hp; [|done].
  destruct (decide _) as [Hact|]; [|done]. by destruct (Hno p).
Qed.

Lemma end_date_arithmetic start_date n :
  end_date_representable start_date n →
  timedelta_days n = Ok (days n) ∧
  datetime_add start_date (days n) = Ok (start_date + days n).
Proof.
  intros [Hn Hsum]. unfold timedelta_days, datetime_add.
  by rewrite !decide_True.
Qed.

Lemma end_date_arithmetic_inv start_date n delta end_date :
  timedelta_days n = Ok delta →
  datetime_add start_date delta = Ok end_date →
  end_date = start_date + days n ∧ end_date_representable start_date n.
Proof.
  unfold timedelta_days, datetime_add.
  destruct (decide (-999999999 ≤ n ≤ 999999999)) as [Hn|]; [|done].
  intros [= <-]. destruct (decide _) as [Hsum|]; [|done].
  intros [= <-]. done.
Qed.

Lemma end_date_arithmetic_overflow start_date n :
  ¬ end_date_representable start_date n →
  timedelta_days n = Raise OverflowError ∨
  ∃ delta, timedelta_days n = Ok delta ∧
           datetime_add start_date delta = Raise OverflowError.
Proof.
  intros Hnot. unfold timedelta_days, datetime_add.
  destruct (decide (-999999999 ≤ n ≤ 999999999)) as [Hn|]; [|by left].
  right. eexists. split; [done|]. rewrite decide_False; [done|].
  intros Hsum. by apply Hnot.
Qed.

(** [create_subscription] in direct style: the three checks in order, then
    the date arithmetic and the insertion. *)
Lemma create_subscription_run db now db_now d :
  SubscriptionService.create_subscription now db_now d db =
    if decide (SubscriptionCreate.user_id d ∈ users db) then
      match scalar_one_or_none
              (select_active_plan (Some (SubscriptionCreate.plan_id d)) db) with
      | Ok (Some plan) =>
          match scalar_one_or_none
                  (select_where
                     (SubscriptionService.active_of (SubscriptionCreate.user_id d))
                     (subscriptions db)) with
          | Ok None =>
              match timedelta_days (Plan.duration_days plan) with
              | Ok delta =>
                  match datetime_add now delta with
                  | Ok end_date =>
                      add_and_commit db_now (SubscriptionCreate.user_id d)
                        (SubscriptionCreate.plan_id d) now end_date
                        (SubscriptionCreate.auto_renew d) ACTIVE db
                  | Raise e => (Raise e, db)
                  end
              | Raise e => (Raise e, db)
              end
          | Ok (Some _) =>
              (Raise (ConflictException
                        "User already has an active subscription"), db)
          | Raise e => (Raise e, db)
          end
      | Ok None => (Raise (NotFoundException "Plan not found or inactive"), db)
      | Raise e => (Raise e, db)
      end
    else (Raise (NotFoundException "User not found"), db).
Proof.
  unfold SubscriptionService.create_subscription, bind, execute, lift,
    select_user, raise.
  destruct (decide _); [|done]. cbn [scalar_one_or_none].
  destruct (scalar_one_or_none (select_active_plan _ db)) as [[plan|]|];
    [|done..].
  rewrite get_active_subscription_by_user_run.
  destruct (scalar_one_or_none (select_where _ _)) as [[o|]|]; [done| |done].
  destruct (timedelta_days _) as [delta|]; [|done].
  by destruct (datetime_add _ _).
Qed.

(** C2, as the code has it.  When the user exists, the plan exists and is
    active, the user has no ACTIVE subscription, and the start date plus
    [duration_days] days is a datetime ([duration_days] within 999999999 in
    magnitude, the sum between [datetime.min] and [datetime.max]),
    [create_subscription] appends one row to the subscriptions table and
    returns it: status ACTIVE, [start_date] the clock reading, [end_date]
    exactly [start_date] plus [duration_days] days, bound to the user and the
    plan of the request. *)
Theorem create_subscription_success db now db_now d p :
  SubscriptionCreate.user_id d ∈ users db →
  active_plan db (SubscriptionCreate.plan_id d) p →
  ¬ has_active db (SubscriptionCreate.user_id d) →
  end_date_representable now (Plan.duration_days p) →
  ∃ row,
    SubscriptionService.create_subscription now db_now d db =
      (Ok row,
       mkDb (users db) (plans db) (subscriptions db ++ [row])
            (subscriptions_id_seq db + 1)) ∧
    Subscription.status row = Some ACTIVE ∧
    Subscription.start_date row = now ∧
    Subscription.end_date row =
      Subscription.start_date row + Plan.duration_days p * 86400000000 ∧
    Subscription.user_id row = SubscriptionCreate.user_id d ∧
    Subscription.plan_id row = Some (SubscriptionCreate.plan_id d) ∧
    Subscription.auto_renew row =
      Some (default true (SubscriptionCreate.auto_renew d)).
Proof.
  intros Hu Hp Hno Hrange. eexists. split.
  - rewrite create_subscription_run, decide_True by done.
    rewrite (select_active_plan_found _ _ _ Hp). cbn [scalar_one_or_none].
    pose proof (get_active_none _ _ Hno) as Hget.
    rewrite get_active_subscription_by_user_run in Hget.
    injection Hget as ->.
    destruct (end_date_arithmetic _ _ Hrange) as [-> ->]. reflexivity.
  - done.
Qed.

(** When the sum is not a datetime the call raises OverflowError and inserts
    nothing. *)
Lemma create_subscription_overflow db now db_now d p :
  SubscriptionCreate.user_id d ∈ users db →
  active_plan db (SubscriptionCreate.plan_id d) p →
  ¬ has_active db (SubscriptionCreate.user_id d) →
  ¬ end_date_representable now (Plan.duration_days p) →
  SubscriptionService.create_subscription now db_now d db =
    (Raise OverflowError, db).
Proof.
  intros Hu Hp Hno Hrange.
  rewrite create_subscription_run, decide_True by done.
  rewrite (select_active_plan_found _ _ _ Hp). cbn [scalar_one_or_none].
  pose proof (get_active_none _ _ Hno) as Hget.
  rewrite get_active_subscription_by_user_run in Hget.
  injection Hget as ->.
  by destruct (end_date_arithmetic_overflow _ _ Hrange)
    as [->|(delta & -> & ->)].
Qed.

(** A raising [create_subscription] has written nothing. *)
Lemma create_subscription_raise_unchanged db now db_now d e db' :
  SubscriptionService.create_subscription now db_now d db = (Raise e, db') →
  db' = db.
Proof.
  rewrite create_subscription_run.
  destruct (decide _); [|congruence].
  destruct (scalar_one_or_none (select_active_plan _ db)) as [[plan|]|];
    [|congruence..].
  destruct (scalar_one_or_none (select_where _ _)) as [[o|]|];
    [congruence| |congruence].
  destruct (timedelta_days _) as [delta|]; [|congruence].
  destruct (datetime_add _ _) as [end_date|]; [|congruence].
  unfold add_and_commit. congruence.
Qed.

Lemma create_subscription_user_not_found db now db_now d :
  SubscriptionCreate.user_id d ∉ users db →
  SubscriptionService.create_subscription now db_now d db =
    (Raise (NotFoundException "User not found"), db).
Proof. intros Hu. by rewrite create_subscription_run, decide_False. Qed.

Lemma create_subscription_plan_not_found db now db_now d :
  no_active_plan db (SubscriptionCreate.plan_id d) →
  ∃ detail,
    SubscriptionService.create_subscription now db_now d db =
      (Raise (NotFoundException detail), db).
Proof.
  intros Hp. rewrite create_subscription_run.
  destruct (decide _); [|by eexists].
  rewrite select_active_plan_none by done. by eexists.
Qed.

Lemma create_subscription_conflict db now db_now d :
  I1 db → SubscriptionCreate.user_id d ∈ users db →
  (∃ p, active_plan db (SubscriptionCreate.plan_id d) p) →
  has_active db (SubscriptionCreate.user_id d) →
  SubscriptionService.create_subscription now db_now d db =
    (Raise (ConflictException "User already has an active subscription"), db).
Proof.
  intros HI Hu [p Hp] Hact.
  destruct (has_active_the_active _ _ HI Hact) as (i & s & Hthe).
  rewrite create_subscription_run, decide_True by done.
  rewrite (select_active_plan_found _ _ _ Hp). cbn [scalar_one_or_none].
  pose proof (get_active_found _ _ _ _ Hthe) as Hget.
  rewrite get_active_subscription_by_user_run in Hget.
  by injection Hget as ->.
Qed.

(** With an ACTIVE row of the user in the table, nothing is inserted. *)
Lemma create_subscription_active_raises db now db_now d :
  has_active db (SubscriptionCreate.user_id d) →
  ∃ e, SubscriptionService.create_subscription now db_now d db = (Raise e, db).
Proof.
  intros (i & s & Hl & Hact).
  destruct (SubscriptionService.create_subscription now db_now d db)
    as [[row|e] db'] eqn:Hrun.
  - exfalso. revert Hrun. rewrite create_subscription_run.
    destruct (decide _); [|congruence].
    destruct (scalar_one_or_none (select_active_plan _ db)) as [[plan|]|];
      [|congruence..].
    destruct (select_where _ _) as [|o [|]] eqn:Hsel; simpl; [|congruence..].
    intros _. eapply select_where_nil in Hsel; eauto.
  - exists e. by rewrite (create_subscription_raise_unchanged _ _ _ _ _ _ Hrun).
Qed.


(** C8. [create_subscription] raises NotFound when the user does not exist,
    NotFound when the plan is missing or not active, and -- these two checks
    passed, in a state satisfying I1 -- Conflict when the user has an ACTIVE
    subscription; a user with an ACTIVE subscription never gets a row
    inserted; and whenever the call raises, the database (the subscription
    store included) is what it was before the call. *)
Theorem create_subscription_failures db now db_now d :
  (SubscriptionCreate.user_id d ∉ users db →
     SubscriptionService.create_subscription now db_now d db =
       (Raise (NotFoundException "User not found"), db)) ∧
  (no_active_plan db (SubscriptionCreate.plan_id d) →
     ∃ detail,
       SubscriptionService.create_subscription now db_now d db =
         (Raise (NotFoundException detail), db)) ∧
  (I1 db → SubscriptionCreate.user_id d ∈ users db →
     (∃ p, active_plan db (SubscriptionCreate.plan_id d) p) →
     has_active db (SubscriptionCreate.user_id d) →
     SubscriptionService.create_subscription now db_now d db =
       (Raise (ConflictException "User already has an active subscription"),
        db)) ∧
  (has_active db (SubscriptionCreate.user_id d) →
     ∃ e, SubscriptionService.create_subscription now db_now d db =
            (Raise e, db)) ∧
  (∀ e db',
     SubscriptionService.create_subscription now db_now d db = (Raise e, db') →
     db' = db).
Proof.
  split_and!.
  - apply create_subscription_user_not_found.
  - apply create_subscription_plan_not_found.
  - apply create_subscription_conflict.
  - apply create_subscription_active_raises.
  - apply create_subscription_raise_unchanged.
Qed.

(** ** Expire *)

Lemma expire_loop (l : list object) dirty count :
  foldl SubscriptionService.expire_one (dirty, count) l =
    (dirty ++ (mark_expired <$> l), count + Z.of_nat (length l)).
Proof.
  revert dirty count. induction l as [|o l IH]; intros dirty count.
  - simpl. by rewrite app_nil_r, Z.add_0_r.
  - cbn [foldl]. unfold SubscriptionService.expire_one at 2.
    rewrite IH. unfold mark_expired. simpl.
    rewrite <- app_assoc. f_equal. lia.
Qed.

Lemma flush_expired (l : list object) db :
  flush (mark_expired <$> l) db =
    (Ok (), with_subscriptions (foldl write_expired (subscriptions db) l) db).
Proof.
  revert db. induction l as [|[i s] l IH]; intros db.
  - simpl. unfold ret. by rewrite with_subscriptions_id.
  - simpl. unfold bind, flush_object. simpl.
    rewrite decide_False by tauto. by rewrite IH.
Qed.

Lemma write_expired_length (l : list object) rows :
  length (foldl write_expired rows l) = length rows.
Proof.
  revert rows. induction l as [|o l IH]; intros rows; [done|].
  simpl. rewrite IH. apply length_insert.
Qed.

Lemma write_expired_other (l : list object) rows i :
  i ∉ l.*1 → foldl write_expired rows l !! i = rows !! i.
Proof.
  revert rows. induction l as [|[j s] l IH]; intros rows Hi; [done|].
  simpl in *. apply not_elem_of_cons in Hi as [Hne Hi].
  rewrite IH by done. unfold write_expired. simpl.
  by apply list_lookup_insert_ne.
Qed.

Lemma write_expired_selected (l : list object) rows i s :
  NoDup l.*1 → (i, s) ∈ l → (i < length rows)%nat →
  foldl write_expired rows l !! i =
    Some (Subscription.set_status (Some EXPIRED) s).
Proof.
  revert rows. induction l as [|[j s'] l IH]; intros rows Hnd Hin Hlt.
  - by apply elem_of_nil in Hin.
  - simpl in *. apply NoDup_cons in Hnd as [Hj Hnd].
    apply elem_of_cons in Hin as [[= <- <-]|Hin].
    + rewrite write_expired_other by done. unfold write_expired. simpl.
      by apply list_lookup_insert_eq.
    + apply IH; [done..|]. unfold write_expired. by rewrite length_insert.
Qed.

(** The table after the loop and its commit: every due row is EXPIRED, every
    other row is as it was. *)
Lemma write_expired_rows current_time rows :
  foldl write_expired rows
    (select_where (SubscriptionService.due current_time) rows) =
  expire_row current_time <$> rows.
Proof.
  apply list_eq. intros i. rewrite list_lookup_fmap.
  destruct (rows !! i) as [s|] eqn:Hi; simpl.
  - unfold expire_row. destruct (decide _) as [Hdue|Hnot].
    + apply write_expired_selected.
      * apply select_where_positions.
      * by apply select_where_elem.
      * by eapply lookup_lt_Some.
    + rewrite write_expired_other; [done|].
      intros ([j s'] & -> & Hin)%list_elem_of_fmap. simpl in *.
      apply select_where_elem in Hin as [Hj Hdue]. congruence.
  - apply lookup_ge_None. rewrite write_expired_length.
    by apply lookup_ge_None.
Qed.

(** [expire_subscriptions] in direct style. *)
Lemma expire_subscriptions_run current_time db :
  SubscriptionService.expire_subscriptions current_time db =
    (Ok (Z.of_nat
           (length (filter (SubscriptionService.due current_time)
                           (subscriptions db)))),
     with_subscriptions (expire_row current_time <$> subscriptions db) db).
Proof.
  unfold SubscriptionService.expire_subscriptions, bind, execute.
  rewrite expire_loop. simpl. rewrite select_where_length.
  destruct (decide _) as [Hpos|Hzero].
  - unfold commit. rewrite flush_expired, write_expired_rows. done.
  - unfold ret. f_equal.
    destruct (filter _ _) as [|s l] eqn:Hf; [|simpl in Hzero; lia].
    rewrite <- (with_subscriptions_id db) at 1. f_equal.
    apply list_eq. intros i. rewrite list_lookup_fmap.
    destruct (subscriptions db !! i) as [s|] eqn:Hi; [|done]. simpl.
    unfold expire_row. rewrite decide_False; [done|].
    intros Hdue. eapply (filter_nil_not_elem_of _ _ s); [exact Hf|exact Hdue|].
    by eapply list_elem_of_lookup_2.
Qed.

(** C4. [expire_subscriptions] at time [current_time] returns the number of
    rows that are ACTIVE with [end_date <= current_time]; each such row becomes
    EXPIRED (nothing else of it changes); every other row -- ACTIVE with a
    later [end_date], CANCELLED, EXPIRED or otherwise -- is left as it was; no
    row is added or removed, and users, plans and the key sequence are
    untouched. *)
Theorem expire_subscriptions_spec db current_time :
  let r := SubscriptionService.expire_subscriptions current_time db in
  r.1 = Ok (Z.of_nat (length (filter (SubscriptionService.due current_time)
                                     (subscriptions db)))) ∧
  users r.2 = users db ∧ plans r.2 = plans db ∧
  subscriptions_id_seq r.2 = subscriptions_id_seq db ∧
  length (subscriptions r.2) = length (subscriptions db) ∧
  ∀ i s, subscriptions db !! i = Some s →
    (Subscription.status s = Some ACTIVE →
     Subscription.end_date s ≤ current_time →
     subscriptions r.2 !! i =
       Some (Subscription.set_status (Some EXPIRED) s)) ∧
    (¬ (Subscription.status s = Some ACTIVE ∧
        Subscription.end_date s ≤ current_time) →
     subscriptions r.2 !! i = Some s).
Proof.
  intros r. unfold r. rewrite expire_subscriptions_run. simpl.
  split_and!; try done.
  - by rewrite length_fmap.
  - intros i s Hi. rewrite list_lookup_fmap, Hi. simpl. unfold expire_row.
    split.
    + intros Hs He. by rewrite decide_True.
    + intros Hnot. by rewrite decide_False.
Qed.

Lemma expire_row_not_due current_time s :
  ¬ SubscriptionService.due current_time (expire_row current_time s).
Proof.
  unfold expire_row. destruct (decide _) as [Hdue|Hnot]; [|done].
  intros [Hs _]. simpl in Hs. congruence.
Qed.

Lemma expire_row_idemp current_time s :
  expire_row current_time (expire_row current_time s) =
  expire_row current_time s.
Proof.
  unfold expire_row at 1. rewrite decide_False; [done|].
  apply expire_row_not_due.
Qed.

(** C5. [expire_subscriptions] never raises; called twice with the same time
    it returns the number [N] of due rows the first time, and the second time
    it returns 0 and leaves the database exactly as the first call left it. *)
Theorem expire_subscriptions_idempotent db current_time :
  let r := SubscriptionService.expire_subscriptions current_time db in
  r.1 = Ok (Z.of_nat (length (filter (SubscriptionService.due current_time)
                                     (subscriptions db)))) ∧
  SubscriptionService.expire_subscriptions current_time r.2 = (Ok 0, r.2).
Proof.
  intros r. unfold r. rewrite !expire_subscriptions_run. simpl.
  split; [done|]. f_equal.
  - replace (filter _ _) with (@nil Subscription.t); [done|].
    symmetry. apply filter_none.
    intros s' (s & -> & _)%list_elem_of_fmap. apply expire_row_not_due.
  - unfold with_subscriptions. simpl. f_equal.
    rewrite <- list_fmap_compose. apply list_fmap_ext.
    intros i s _. apply expire_row_idemp.
Qed.

(** ** Update *)

Lemma dict_plan_id_model_dump d :
  dict_plan_id (model_dump_exclude_unset d) = SubscriptionUpdate.plan_id d.
Proof. by destruct d as [[?|] [?|] [?|]]. Qed.

(** The attributes after the [setattr] loop: a field set in the request
    overwrites the attribute, the other attributes are kept. *)
Lemma setattr_loop_plan_id s d :
  Subscription.plan_id (foldl setattr s (model_dump_exclude_unset d)) =
    default (Subscription.plan_id s) (SubscriptionUpdate.plan_id d).
Proof. by destruct d as [[?|] [?|] [?|]]. Qed.

Lemma setattr_loop_status s d :
  Subscription.status (foldl setattr s (model_dump_exclude_unset d)) =
    default (Subscription.status s) (SubscriptionUpdate.status d).
Proof. by destruct d as [[?|] [?|] [?|]]. Qed.

Lemma setattr_loop_auto_renew s d :
  Subscription.auto_renew (foldl setattr s (model_dump_exclude_unset d)) =
    default (Subscription.auto_renew s) (SubscriptionUpdate.auto_renew d).
Proof. by destruct d as [[?|] [?|] [?|]]. Qed.

Lemma setattr_loop_user_id s l :
  Subscription.user_id (foldl setattr s l) = Subscription.user_id s.
Proof.
  revert s. induction l as [|it l IH]; intros s; [done|].
  simpl. rewrite IH. by destruct it.
Qed.

Lemma setattr_loop_end_date s l :
  Subscription.end_date (foldl setattr s l) = Subscription.end_date s.
Proof.
  revert s. induction l as [|it l IH]; intros s; [done|].
  simpl. rewrite IH. by destruct it.
Qed.

(** The plan-change block in direct style.  When the durations differ, the
    first statement subtracts the naive clock reading from the aware
    [end_date] of the loaded subscription, and raises. *)
Lemma handle_plan_change_run now_remaining now_reset update_data s db :
  SubscriptionService.handle_plan_change now_remaining now_reset update_data s db =
    match dict_plan_id update_data with
    | Some v =>
        match scalar_one_or_none (select_active_plan v db) with
        | Ok (Some plan) =>
            match scalar_one (select_plan (Subscription.plan_id s) db) with
            | Ok current_plan =>
                if decide (Plan.duration_days plan ≠
                           Plan.duration_days current_plan)
                then (Raise TypeError, db)
                else (Ok s, db)
            | Raise e => (Raise e, db)
            end
        | Ok None => (Raise (NotFoundException "Plan not found or inactive"), db)
        | Raise e => (Raise e, db)
        end
    | None => (Ok s, db)
    end.
Proof.
  unfold SubscriptionService.handle_plan_change, bind, execute, lift, raise, ret.
  destruct (dict_plan_id update_data) as [v|]; [|done].
  destruct (scalar_one_or_none (select_active_plan v db)) as [[plan|]|];
    [|done..].
  destruct (scalar_one (select_plan _ db)) as [current_plan|]; [|done].
  by destruct (decide _).
Qed.

(** The plan-change block writes nothing and touches only [end_date]. *)
Lemma handle_plan_change_inv now_remaining now_reset update_data s db r db' :
  SubscriptionService.handle_plan_change now_remaining now_reset update_data s db
    = (r, db') →
  db' = db ∧
  ∀ s1, r = Ok s1 →
    s1 = Subscription.set_end_date (Subscription.end_date s1) s.
Proof.
  assert (s = Subscription.set_end_date (Subscription.end_date s) s) as Hs
    by by destruct s.
  rewrite handle_plan_change_run.
  destruct (dict_plan_id update_data) as [v|];
    [|intros [= <- <-]; split; [done|]; by intros s1 [= <-]].
  destruct (scalar_one_or_none (select_active_plan v db)) as [[plan|]|];
    [|intros [= <- <-]; split; [done|]; by intros s1 [=]..].
  destruct (scalar_one _) as [cur|];
    [|intros [= <- <-]; split; [done|]; by intros s1 [=]].
  destruct (decide _); intros [= <- <-]; split; try done.
  by intros s1 [= <-].
Qed.

(** When the plan-change block returns, the subscription is as loaded. *)
Lemma handle_plan_change_returns now_remaining now_reset update_data s db s1 db' :
  SubscriptionService.handle_plan_change now_remaining now_reset update_data s db
    = (Ok s1, db') →
  s1 = s.
Proof.
  rewrite handle_plan_change_run.
  destruct (dict_plan_id update_data) as [v|]; [|by intros [= <- <-]].
  destruct (scalar_one_or_none (select_active_plan v db)) as [[plan|]|];
    [|done..].
  destruct (scalar_one _) as [cur|]; [|done].
  destruct (decide _); [done|]. by intros [= <- <-].
Qed.

(** [update_subscription] in direct style. *)
Lemma update_subscription_run now_remaining now_reset user_id d db :
  SubscriptionService.update_subscription now_remaining now_reset user_id d db =
    match scalar_one_or_none
            (select_where (SubscriptionService.active_of user_id)
                          (subscriptions db)) with
    | Ok (Some (i, loaded)) =>
        match SubscriptionService.handle_plan_change now_remaining now_reset
                (model_dump_exclude_unset d) loaded db with
        | (Ok s1, db1) =>
            let s' := foldl setattr s1 (model_dump_exclude_unset d) in
            match commit [(i, loaded, s')] db1 with
            | (Ok _, db2) => (Ok s', db2)
            | (Raise e, db2) => (Raise e, db2)
            end
        | (Raise e, db1) => (Raise e, db1)
        end
    | Ok None =>
        (Raise (NotFoundException "No active subscription found for user"), db)
    | Raise e => (Raise e, db)
    end.
Proof.
  unfold SubscriptionService.update_subscription. unfold bind at 1.
  rewrite get_active_subscription_by_user_run.
  destruct (scalar_one_or_none (select_where _ _)) as [[[i loaded]|]|];
    [|done..].
  unfold bind.
  destruct (SubscriptionService.handle_plan_change _ _ _ _ _) as [[s1|e] db1];
    [|done].
  by destruct (commit _ db1) as [[[]|e] db2].
Qed.

(** C3, on the code.  For the ACTIVE subscription [s] (row [i]) of the
    user, bound to the plan [current], [update_subscription] with a new
    active plan [p]:
    - when the duration of [p] differs from that of [current], the call
      raises TypeError at [remaining_time = subscription.end_date -
      datetime.utcnow()] and writes nothing: [end_date] is not reset to now
      plus the new duration, and the subscription is not rebound;
    - when the two durations are equal, the call succeeds, rebinds the
      subscription and leaves [end_date] unchanged. *)
Theorem update_subscription_plan_switch
    db now_remaining now_reset user_id d i s new_plan_id p current_plan_id current :
  the_active db user_id i s →
  SubscriptionUpdate.plan_id d = Some (Some new_plan_id) →
  active_plan db new_plan_id p →
  Subscription.plan_id s = Some current_plan_id →
  plans db !! current_plan_id = Some current →
  (Plan.duration_days p ≠ Plan.duration_days current →
     SubscriptionService.update_subscription now_remaining now_reset user_id d db
       = (Raise TypeError, db) ∧
     status_code TypeError = 500) ∧
  (Plan.duration_days p = Plan.duration_days current →
     ∃ s',
       SubscriptionService.update_subscription
         now_remaining now_reset user_id d db
         = (Ok s', with_subscriptions (<[i := s']> (subscriptions db)) db) ∧
       Subscription.plan_id s' = Some new_plan_id ∧
       Subscription.end_date s' = Subscription.end_date s).
Proof.
  intros Hthe Hd Hp Hcur Hcurrent.
  pose proof (get_active_found _ _ _ _ Hthe) as Hget.
  rewrite get_active_subscription_by_user_run in Hget. injection Hget as Hget.
  assert (SubscriptionService.handle_plan_change now_remaining now_reset
            (model_dump_exclude_unset d) s db =
          if decide (Plan.duration_days p ≠ Plan.duration_days current)
          then (Raise TypeError, db) else (Ok s, db)) as Hplan.
  { rewrite handle_plan_change_run, dict_plan_id_model_dump, Hd.
    rewrite (select_active_plan_found _ _ _ Hp). cbn [scalar_one_or_none].
    unfold select_plan. rewrite Hcur, Hcurrent. done. }
  split.
  - intros Hne. split; [|done].
    rewrite update_subscription_run, Hget, Hplan. by rewrite decide_True.
  - intros Heq. eexists. split_and!.
    + rewrite update_subscription_run, Hget, Hplan.
      rewrite decide_False by (by intros ?). cbv beta iota zeta.
      rewrite commit_single; [done|].
      rewrite setattr_loop_plan_id, Hd. by intros [? _].
    + by rewrite setattr_loop_plan_id, Hd.
    + by rewrite setattr_loop_end_date.
Qed.

(** ** One call, row by row *)

Lemma commit_single_inv i loaded current db r db' :
  commit [(i, loaded, current)] db = (r, db') →
  db' = db ∨ db' = with_subscriptions (<[i := current]> (subscriptions db)) db.
Proof.
  destruct (decide (Subscription.plan_id current = None ∧
                    Subscription.plan_id loaded ≠ None)) as [Hbad|Hok].
  - rewrite commit_single_rejected by done. intros [= <- <-]. by left.
  - rewrite commit_single by done. intros [= <- <-]. by right.
Qed.

Lemma query_active_inv user_id db (o : object) :
  scalar_one_or_none
    (select_where (SubscriptionService.active_of user_id) (subscriptions db))
    = Ok (Some o) →
  subscriptions db !! o.1 = Some o.2 ∧
  SubscriptionService.active_of user_id o.2.
Proof.
  intros Hq.
  by destruct (get_active_inv user_id db _ db
                 (get_active_subscription_by_user_run user_id db)) as [_ Ho];
    apply Ho.
Qed.

Lemma query_active_none user_id db :
  scalar_one_or_none
    (select_where (SubscriptionService.active_of user_id) (subscriptions db))
    = Ok None →
  ¬ has_active db user_id.
Proof.
  destruct (select_where _ _) as [|o [|]] eqn:Hsel; simpl; [|done..].
  intros _ (i & s & Hl & Hact).
  by eapply (select_where_nil (SubscriptionService.active_of user_id)).
Qed.

Lemma create_origin db now db_now d i s' :
  subscriptions (run_call db (call_create now db_now d)) !! i = Some s' →
  row_origin db (call_create now db_now d) i s'.
Proof.
  simpl. rewrite create_subscription_run.
  destruct (decide _); [|by constructor 1].
  destruct (scalar_one_or_none (select_active_plan _ db)) as [[plan|]|];
    [|by constructor 1..].
  destruct (scalar_one_or_none (select_where _ _)) as [[o|]|] eqn:Hq;
    [by constructor 1| |by constructor 1].
  destruct (timedelta_days _) as [delta|]; [|by constructor 1].
  destruct (datetime_add _ _) as [end_date|]; [|by constructor 1].
  simpl. intros [[_ Hold]|[-> <-]]%lookup_snoc_Some; [by constructor 1|].
  constructor 3; [done..|]. by apply query_active_none.
Qed.

Lemma cancel_origin db user_id i s' :
  subscriptions (run_call db (call_cancel user_id)) !! i = Some s' →
  row_origin db (call_cancel user_id) i s'.
Proof.
  simpl. unfold SubscriptionService.cancel_subscription, bind.
  rewrite get_active_subscription_by_user_run.
  destruct (scalar_one_or_none (select_where _ _)) as [[[j loaded]|]|] eqn:Hq;
    [|by constructor 1..].
  apply query_active_inv in Hq as [Hj [Hu Hs]]. simpl in *.
  rewrite commit_single by (simpl; tauto). simpl.
  intros [(<- & <- & _)|[Hne Hold]]%list_lookup_insert_Some;
    [|by constructor 1].
  econstructor 2; eauto.
Qed.

Lemma update_origin db t1 t2 user_id d i s' :
  subscriptions (run_call db (call_update t1 t2 user_id d)) !! i = Some s' →
  row_origin db (call_update t1 t2 user_id d) i s'.
Proof.
  simpl. rewrite update_subscription_run.
  destruct (scalar_one_or_none (select_where _ _)) as [[[j loaded]|]|] eqn:Hq;
    [|by constructor 1..].
  apply query_active_inv in Hq as [Hj [Hu Hs]]. simpl in *.
  destruct (SubscriptionService.handle_plan_change _ _ _ _ _)
    as [[s1|e] db1] eqn:Hplan; apply handle_plan_change_inv in Hplan as [-> Hs1];
    [|by constructor 1].
  specialize (Hs1 s1 eq_refl). cbv zeta.
  destruct (commit _ db) as [r db2] eqn:Hc.
  assert (subscriptions db2 !! i = Some s' → 
          row_origin db (call_update t1 t2 user_id d) i s') as Hgoal.
  { apply commit_single_inv in Hc as [->| ->]; [by constructor 1|]. simpl.
    intros [(<- & <- & _)|[Hne Hold]]%list_lookup_insert_Some;
      [|by constructor 1].
    econstructor 2; [done..| |].
    - rewrite setattr_loop_user_id, Hs1. done.
    - rewrite setattr_loop_status. simpl.
      destruct (SubscriptionUpdate.status d) as [v|]; simpl.
      + by do 3 right.
      + left. rewrite Hs1. done. }
  by destruct r as [[]|].
Qed.

Lemma expire_origin db current_time i s' :
  subscriptions (run_call db (call_expire current_time)) !! i = Some s' →
  row_origin db (call_expire current_time) i s'.
Proof.
  simpl. rewrite expire_subscriptions_run. simpl.
  rewrite list_lookup_fmap.
  destruct (subscriptions db !! i) as [s|] eqn:Hi; [|done]. simpl.
  unfold expire_row. destruct (decide _) as [[Hs He]|Hnot]; intros [= <-].
  - econstructor 2; eauto.
  - by constructor 1.
Qed.

Lemma run_call_origin db c i s' :
  subscriptions (run_call db c) !! i = Some s' → row_origin db c i s'.
Proof.
  destruct c; eauto using create_origin, update_origin, cancel_origin,
    expire_origin.
Qed.

(** No call removes a row. *)
Lemma run_call_length db c :
  (length (subscriptions db) ≤ length (subscriptions (run_call db c)))%nat.
Proof.
  destruct c as [now db_now d|t1 t2 u d|u|t]; simpl.
  - rewrite create_subscription_run.
    destruct (decide _); [|done].
    destruct (scalar_one_or_none (select_active_plan _ db)) as [[plan|]|];
      [|done..].
    destruct (scalar_one_or_none (select_where _ _)) as [[o|]|]; [done| |done].
    destruct (timedelta_days _) as [delta|]; [|done].
    destruct (datetime_add _ _) as [end_date|]; [|done].
    simpl. rewrite length_app. lia.
  - rewrite update_subscription_run.
    destruct (scalar_one_or_none (select_where _ _)) as [[[j loaded]|]|];
      [|done..].
    destruct (SubscriptionService.handle_plan_change _ _ _ _ _)
      as [[s1|e] db1] eqn:Hplan;
      apply handle_plan_change_inv in Hplan as [-> _]; [|done].
    cbv zeta. destruct (commit _ db) as [r db2] eqn:Hc.
    assert (length (subscriptions db) ≤ length (subscriptions db2))%nat.
    { apply commit_single_inv in Hc as [->| ->]; [done|].
      simpl. by rewrite length_insert. }
    by destruct r as [[]|].
  - unfold SubscriptionService.cancel_subscription, bind.
    rewrite get_active_subscription_by_user_run.
    destruct (scalar_one_or_none (select_where _ _)) as [[[j loaded]|]|];
      [|done..].
    rewrite commit_single by (simpl; tauto). simpl. by rewrite length_insert.
  - rewrite expire_subscriptions_run. simpl. by rewrite length_fmap.
Qed.

(** ** I1: at most one ACTIVE subscription per user *)





(** ** Terminal states *)

Lemma run_call_terminal db c i s :
  subscriptions db !! i = Some s → terminal s →
  subscriptions (run_call db c) !! i = Some s.
Proof.
  intros Hi Hterm.
  assert (is_Some (subscriptions (run_call db c) !! i)) as [s' Hi'].
  { apply lookup_lt_is_Some. eapply Nat.lt_le_trans; [|apply run_call_length].
    by eapply lookup_lt_Some. }
  rewrite Hi'.
  destruct (run_call_origin _ _ _ _ Hi') as [Hk|s0 Hl Ha _ _|Hn _ _].
  - congruence.
  - assert (s0 = s) as -> by congruence.
    destruct Hterm; congruence.
  - apply lookup_lt_Some in Hi. lia.
Qed.

Lemma run_calls_terminal db cs i s :
  subscriptions db !! i = Some s → terminal s →
  subscriptions (run_calls db cs) !! i = Some s.
Proof.
  revert db. induction cs as [|c cs IH]; intros db Hi Hterm; [done|].
  simpl. apply IH; [|done]. by apply run_call_terminal.
Qed.

Lemma update_subscription_not_found db t1 t2 user_id d :
  ¬ has_active db user_id →
  SubscriptionService.update_subscription t1 t2 user_id d db =
    (Raise (NotFoundException "No active subscription found for user"), db).
Proof.
  intros Hno. rewrite update_subscription_run.
  pose proof (get_active_none _ _ Hno) as Hget.
  rewrite get_active_subscription_by_user_run in Hget.
  by injection Hget as ->.
Qed.

Lemma cancel_subscription_not_found db user_id :
  ¬ has_active db user_id →
  SubscriptionService.cancel_subscription user_id db =
    (Raise (NotFoundException "No active subscription found for user"), db).
Proof.
  intros Hno. unfold SubscriptionService.cancel_subscription, bind.
  by rewrite get_active_none.
Qed.

(** C6, as the code has it.  A subscription row that is CANCELLED or EXPIRED
    is left exactly as it is by every sequence of lifecycle calls: no cancel,
    update or expire (nor create) writes to it.  Cancel and update act on the
    ACTIVE subscription of the user only: for a user without one -- a user
    whose subscriptions are all terminal, for instance -- they raise NotFound
    and change nothing; expire passes over terminal rows. *)
Theorem terminal_subscription_never_mutated db i s :
  subscriptions db !! i = Some s → terminal s →
  (∀ cs, subscriptions (run_calls db cs) !! i = Some s) ∧
  (¬ has_active db (Subscription.user_id s) →
     SubscriptionService.cancel_subscription (Subscription.user_id s) db =
       (Raise (NotFoundException "No active subscription found for user"), db) ∧
     ∀ t1 t2 d,
       SubscriptionService.update_subscription t1 t2 (Subscription.user_id s) d db
         = (Raise (NotFoundException "No active subscription found for user"),
            db)).
Proof.
  intros Hi Hterm. split.
  - intros cs. by apply run_calls_terminal.
  - intros Hno. split.
    + by apply cancel_subscription_not_found.
    + intros t1 t2 d. by apply update_subscription_not_found.
Qed.

(** ** The status INACTIVE *)

Lemma run_call_no_inactive db c :
  ¬ sets_inactive c → no_inactive db → no_inactive (run_call db c).
Proof.
  intros Hc Hdb i s' Hi Hs.
  destruct (run_call_origin _ _ _ _ Hi) as [Hk|s0 Hl Ha _ Hst|Hn Ha _].
  - by apply (Hdb i s').
  - destruct Hst as [?|[?|[?|Hp]]]; [congruence..|].
    apply Hc. destruct c; simpl in *; congruence.
  - congruence.
Qed.

(** The update that sets INACTIVE. *)
Lemma update_subscription_sets_status db t1 t2 user_id d i s :
  the_active db user_id i s →
  SubscriptionUpdate.plan_id d = None →
  ∃ s',
    SubscriptionService.update_subscription t1 t2 user_id d db =
      (Ok s', with_subscriptions (<[i := s']> (subscriptions db)) db) ∧
    subscriptions
      (SubscriptionService.update_subscription t1 t2 user_id d db).2 !! i
      = Some s' ∧
    Subscription.status s' =
      default (Subscription.status s) (SubscriptionUpdate.status d).
Proof.
  intros Hthe Hd.
  pose proof (get_active_found _ _ _ _ Hthe) as Hget.
  rewrite get_active_subscription_by_user_run in Hget. injection Hget as Hget.
  set (s' := foldl setattr s (model_dump_exclude_unset d)).
  assert (SubscriptionService.update_subscription t1 t2 user_id d db =
          (Ok s', with_subscriptions (<[i := s']> (subscriptions db)) db))
    as Hrun.
  { rewrite update_subscription_run, Hget, handle_plan_change_run.
    rewrite dict_plan_id_model_dump, Hd. cbv beta iota zeta. fold s'.
    rewrite commit_single; [done|].
    unfold s'. rewrite setattr_loop_plan_id, Hd. simpl. tauto. }
  exists s'. rewrite Hrun. split_and!; [done| |apply setattr_loop_status].
  simpl. apply list_lookup_insert_eq. destruct Hthe as [Hl _].
  by eapply lookup_lt_Some.
Qed.

(** What a returning [update_subscription] has done: the ACTIVE row of the
    user is the loaded subscription with the fields of the payload
    assigned. *)
Lemma update_subscription_returns_inv db t1 t2 u d s' db' :
  SubscriptionService.update_subscription t1 t2 u d db = (Ok s', db') →
  ∃ i s,
    subscriptions db !! i = Some s ∧ SubscriptionService.active_of u s ∧
    s' = foldl setattr s (model_dump_exclude_unset d) ∧
    db' = with_subscriptions (<[i := s']> (subscriptions db)) db.
Proof.
  rewrite update_subscription_run.
  destruct (scalar_one_or_none (select_where _ _)) as [[[i s]|]|] eqn:Hq;
    [|done..].
  apply query_active_inv in Hq as [Hi Hact]. simpl in *.
  destruct (SubscriptionService.handle_plan_change _ _ _ _ _)
    as [[s1|e] db1] eqn:Hplan; [|done].
  pose proof (handle_plan_change_returns _ _ _ _ _ _ _ Hplan) as ->.
  apply handle_plan_change_inv in Hplan as [-> _]. cbv zeta.
  destruct (decide (Subscription.plan_id
                      (foldl setattr s (model_dump_exclude_unset d)) = None ∧
                    Subscription.plan_id s ≠ None)) as [Hbad|Hok].
  - by rewrite commit_single_rejected.
  - rewrite commit_single by done. intros [= <- <-]. by exists i, s.
Qed.

(** C9, as the code has it.  Create, cancel and expire never produce the
    status INACTIVE, and neither does an update whose payload does not set
    [status] to INACTIVE: from a state without INACTIVE rows, every sequence
    of such calls reaches only states without INACTIVE rows.  An update whose
    payload sets [status] to INACTIVE and which returns has put the user's
    ACTIVE subscription in status INACTIVE; and such an update does return
    when the payload names no plan. *)
Theorem inactive_only_by_update_payload db :
  (∀ cs, no_inactive db → Forall (λ c, ¬ sets_inactive c) cs →
     no_inactive (run_calls db cs)) ∧
  (∀ t1 t2 user_id d s' db',
     SubscriptionUpdate.status d = Some (Some INACTIVE) →
     SubscriptionService.update_subscription t1 t2 user_id d db
       = (Ok s', db') →
     Subscription.status s' = Some INACTIVE ∧
     ∃ i s, subscriptions db !! i = Some s ∧
            SubscriptionService.active_of user_id s ∧
            subscriptions db' !! i = Some s') ∧
  (∀ t1 t2 user_id d i s,
     the_active db user_id i s →
     SubscriptionUpdate.plan_id d = None →
     SubscriptionUpdate.status d = Some (Some INACTIVE) →
     ∃ s',
       subscriptions
         (run_call db (call_update t1 t2 user_id d)) !! i = Some s' ∧
       Subscription.status s' = Some INACTIVE).
Proof.
  split_and!.
  - intros cs. revert db.
    induction cs as [|c cs IH]; intros db Hdb Hcs; [done|].
    apply Forall_cons in Hcs as [Hc Hcs]. simpl.
    apply IH; [|done]. by apply run_call_no_inactive.
  - intros t1 t2 u d s' db' Hstatus Hrun.
    apply update_subscription_returns_inv in Hrun
      as (i & s & Hi & Hact & -> & ->).
    split; [by rewrite setattr_loop_status, Hstatus|].
    exists i, s. split_and!; [done..|]. simpl.
    apply list_lookup_insert_eq. by eapply lookup_lt_Some.
  - intros t1 t2 u d i s Hthe Hplan Hstatus.
    destruct (update_subscription_sets_status db t1 t2 u d i s Hthe Hplan)
      as (s' & _ & Hrow & Hs').
    exists s'. split; [done|]. by rewrite Hs', Hstatus.
Qed.

(** ** The current subscription of a user *)

Lemma get_subscription_by_user_run user_id db :
  SubscriptionService.get_subscription_by_user user_id db =
    (scalar_one_or_none
       (SubscriptionService.order_by_created_at_desc
          (select_where (SubscriptionService.current_of user_id)
                        (subscriptions db))),
     db).
Proof. reflexivity. Qed.

Lemma get_subscription_by_user_none db user_id :
  (∀ i s, subscriptions db !! i = Some s →
          Subscription.user_id s = user_id → terminal s) →
  SubscriptionService.get_subscription_by_user user_id db = (Ok None, db).
Proof.
  intros Hterm. rewrite get_subscription_by_user_run.
  replace (select_where _ _) with (@nil object); [done|].
  symmetry. apply select_where_nil. intros i s Hi [Hu Hs].
  destruct (Hterm i s Hi Hu), Hs; congruence.
Qed.

(** C10. What [get_subscription_by_user] returns is a row of the user whose
    status is ACTIVE or INACTIVE.  For a user all of whose rows are CANCELLED
    or EXPIRED it returns none, and the endpoint GET /subscriptions/{user_id},
    called by that user, answers 404 "No subscription found for user" --
    whether or not the table holds (terminal) rows of the user. *)
Theorem get_subscription_by_user_spec db user_id :
  (∀ o, (SubscriptionService.get_subscription_by_user user_id db).1
          = Ok (Some o) →
        subscriptions db !! o.1 = Some o.2 ∧
        Subscription.user_id o.2 = user_id ∧
        (Subscription.status o.2 = Some ACTIVE ∨
         Subscription.status o.2 = Some INACTIVE)) ∧
  ((∀ i s, subscriptions db !! i = Some s →
           Subscription.user_id s = user_id →
           Subscription.status s = Some CANCELLED ∨
           Subscription.status s = Some EXPIRED) →
     SubscriptionService.get_subscription_by_user user_id db = (Ok None, db) ∧
     get_user_subscription user_id user_id db =
       (Raise (HTTPException 404 "No subscription found for user"), db) ∧
     status_code (HTTPException 404 "No subscription found for user") = 404).
Proof.
  split.
  - intros [i s]. rewrite get_subscription_by_user_run. simpl.
    destruct (SubscriptionService.order_by_created_at_desc _)
      as [|o [|]] eqn:Hsort; [done| |done].
    intros [= ->].
    assert ((i, s) ∈ select_where (SubscriptionService.current_of user_id)
                       (subscriptions db)) as Hin.
    { unfold SubscriptionService.order_by_created_at_desc in Hsort.
      rewrite <- (merge_sort_Permutation SubscriptionService.created_at_desc).
      rewrite Hsort. left. }
    by apply select_where_elem in Hin as [Hi [Hu Hs]].
  - intros Hterm.
    pose proof (get_subscription_by_user_none db user_id Hterm) as Hnone.
    split_and!; [done| |done].
    unfold get_user_subscription. rewrite decide_False by (by intros ?).
    unfold bind. by rewrite Hnone.
Qed.

(** * The properties on the example data *)

(** Case analysis on the position of a row in a concrete table. *)
Ltac case_rows H :=
  simpl in H;
  repeat match type of H with
         | (_ :: _) !! ?j = Some _ => destruct j as [|j]; simpl in H
         | [] !! _ = Some _ => discriminate H
         end.

(** The concrete row [i] is the one ACTIVE row of the user. *)
Ltac solve_the_active :=
  split; [reflexivity|]; split; [by split|];
  let j := fresh "j" in let s := fresh "s" in
  let Hj := fresh "Hj" in let Hu := fresh "Hu" in let Hs := fresh "Hs" in
  intros j s Hj [Hu Hs]; case_rows Hj;
  first [reflexivity | injection Hj as <-; simpl in *; discriminate].

(** The user has no ACTIVE row in the concrete table. *)
Ltac solve_no_active :=
  let j := fresh "j" in let s := fresh "s" in
  let Hj := fresh "Hj" in let Hu := fresh "Hu" in let Hs := fresh "Hs" in
  intros (j & s & Hj & Hu & Hs); case_rows Hj;
  injection Hj as <-; simpl in *; discriminate.

(** The end date of a concrete subscription is a datetime. *)
Ltac solve_representable :=
  unfold end_date_representable, days, datetime_min, datetime_max;
  simpl; lia.

(** I1 on a concrete table. *)
Ltac solve_I1 :=
  let i := fresh "i" in let j := fresh "j" in
  let Hi := fresh "Hi" in let Hj := fresh "Hj" in
  intros i j ? ? Hi Hj ? ? ?; case_rows Hi; case_rows Hj;
  first [reflexivity
        | injection Hi as <-; injection Hj as <-; simpl in *; discriminate].


Lemma create_subscription_success_witness :
  ∃ row,
    SubscriptionService.create_subscription 1000 1001
      (SubscriptionCreate.mk 1 (Some true) 1) example_db_empty =
      (Ok row, mkDb example_users example_plans [row] 2) ∧
    Subscription.status row = Some ACTIVE ∧
    Subscription.start_date row = 1000 ∧
    Subscription.end_date row = 1000 + 30 * 86400000000.
Proof.
  destruct (create_subscription_success example_db_empty 1000 1001
              (SubscriptionCreate.mk 1 (Some true) 1)
              (Plan.mk "Basic" 30 (Some true)))
    as (row & Hrun & Hstatus & Hstart & Hend & _).
  - vm_compute. reflexivity.
  - split; reflexivity.
  - solve_no_active.
  - solve_representable.
  - exists row. rewrite Hend, Hstart. by repeat split.
Defined.

Lemma update_subscription_plan_switch_witness :
  SubscriptionService.update_subscription 7000 7001 1
    (SubscriptionUpdate.mk (Some (Some 2)) None None) example_db_active =
    (Raise TypeError, example_db_active) ∧
  (∃ s',
     SubscriptionService.update_subscription 7000 7001 1
       (SubscriptionUpdate.mk (Some (Some 4)) None None) example_db_active =
       (Ok s', with_subscriptions [s'] example_db_active) ∧
     Subscription.plan_id s' = Some 4 ∧
     Subscription.end_date s' = 2592000001000).
Proof.
  split.
  - destruct (update_subscription_plan_switch example_db_active 7000 7001 1
                (SubscriptionUpdate.mk (Some (Some 2)) None None)
                0 (example_row (Some ACTIVE) true)
                2 (Plan.mk "Fortnight" 14 (Some true))
                1 (Plan.mk "Basic" 30 (Some true)))
      as [Hraise _];
      [solve_the_active|reflexivity|by split|reflexivity|reflexivity|].
    apply Hraise. simpl. lia.
  - destruct (update_subscription_plan_switch example_db_active 7000 7001 1
                (SubscriptionUpdate.mk (Some (Some 4)) None None)
                0 (example_row (Some ACTIVE) true)
                4 (Plan.mk "Pro" 30 (Some true))
                1 (Plan.mk "Basic" 30 (Some true)))
      as [_ Hkeep];
      [solve_the_active|reflexivity|by split|reflexivity|reflexivity|].
    apply Hkeep. reflexivity.
Defined.

(** P6 of the specification: of three ACTIVE subscriptions ending at t-1, t
    and t+1, expiry at t transitions the first two and leaves the third. *)
Lemma expire_subscriptions_spec_witness :
  let r := SubscriptionService.expire_subscriptions 5000 example_db_three in
  r.1 = Ok 2 ∧
  subscriptions r.2 !! 0%nat =
    Some (Subscription.mk 1 1 (Some 1) (Some EXPIRED) 1000 4999 (Some true) 1001) ∧
  subscriptions r.2 !! 1%nat =
    Some (Subscription.mk 2 2 (Some 1) (Some EXPIRED) 1000 5000 (Some true) 1001) ∧
  subscriptions r.2 !! 2%nat =
    Some (Subscription.mk 3 3 (Some 1) (Some ACTIVE) 1000 5001 (Some true) 1001).
Proof.
  destruct (expire_subscriptions_spec example_db_three 5000)
    as (Hcount & _ & _ & _ & _ & Hrows).
  split_and!.
  - exact Hcount.
  - destruct (Hrows 0%nat _ eq_refl) as [Hdue _].
    apply Hdue; [reflexivity|simpl; lia].
  - destruct (Hrows 1%nat _ eq_refl) as [Hdue _].
    apply Hdue; [reflexivity|simpl; lia].
  - destruct (Hrows 2%nat _ eq_refl) as [_ Hlater].
    apply Hlater. simpl. lia.
Defined.

Lemma terminal_subscription_never_mutated_witness :
  subscriptions (run_calls example_db_cancelled example_scenario) !! 0%nat =
    Some (example_row (Some CANCELLED) false) ∧
  subscriptions (run_calls example_db_cancelled [call_expire 9000000000000])
    !! 0%nat = Some (example_row (Some CANCELLED) false) ∧
  SubscriptionService.cancel_subscription 1 example_db_cancelled =
    (Raise (NotFoundException "No active subscription found for user"),
     example_db_cancelled) ∧
  SubscriptionService.update_subscription 7000 7001 1
    (SubscriptionUpdate.mk (Some (Some 2)) None None) example_db_cancelled =
    (Raise (NotFoundException "No active subscription found for user"),
     example_db_cancelled).
Proof.
  destruct (terminal_subscription_never_mutated example_db_cancelled 0
              (example_row (Some CANCELLED) false))
    as [Hseq Hraise]; [reflexivity|by left|].
  destruct Hraise as [Hcancel Hupdate]; [solve_no_active|].
  split_and!.
  - apply Hseq.
  - apply Hseq.
  - exact Hcancel.
  - apply Hupdate.
Defined.

Lemma cancel_subscription_spec_witness :
  SubscriptionService.cancel_subscription 1 example_db_active =
    (Ok (example_row (Some CANCELLED) false), example_db_cancelled) ∧
  SubscriptionService.cancel_subscription 2 example_db_active =
    (Raise (NotFoundException "No active subscription found for user"),
     example_db_active).
Proof.
  split.
  - destruct (cancel_subscription_spec example_db_active 1) as [Hcancel _].
    destruct (Hcancel 0%nat (example_row (Some ACTIVE) true))
      as (Hrun & _); [solve_the_active|]. exact Hrun.
  - destruct (cancel_subscription_spec example_db_active 2) as [_ Hnone].
    apply Hnone. solve_no_active.
Defined.

Lemma create_subscription_failures_witness :
  SubscriptionService.create_subscription 2000 2001
    (SubscriptionCreate.mk 1 (Some true) 7) example_db_active =
    (Raise (NotFoundException "User not found"), example_db_active) ∧
  (∃ detail,
     SubscriptionService.create_subscription 2000 2001
       (SubscriptionCreate.mk 3 (Some true) 2) example_db_active =
       (Raise (NotFoundException detail), example_db_active)) ∧
  (∃ detail,
     SubscriptionService.create_subscription 2000 2001
       (SubscriptionCreate.mk 9 (Some true) 2) example_db_active =
       (Raise (NotFoundException detail), example_db_active)) ∧
  SubscriptionService.create_subscription 2000 2001
    (SubscriptionCreate.mk 2 (Some true) 1) example_db_active =
    (Raise (ConflictException "User already has an active subscription"),
     example_db_active).
Proof.
  split_and!.
  - destruct (create_subscription_failures example_db_active 2000 2001
                (SubscriptionCreate.mk 1 (Some true) 7)) as (Huser & _).
    apply Huser. vm_compute. discriminate.
  - destruct (create_subscription_failures example_db_active 2000 2001
                (SubscriptionCreate.mk 3 (Some true) 2)) as (_ & Hplan & _).
    apply Hplan. intros p [Hp Hact]. vm_compute in Hp.
    injection Hp as <-. discriminate Hact.
  - destruct (create_subscription_failures example_db_active 2000 2001
                (SubscriptionCreate.mk 9 (Some true) 2)) as (_ & Hplan & _).
    apply Hplan. intros p [Hp Hact]. vm_compute in Hp. discriminate Hp.
  - destruct (create_subscription_failures example_db_active 2000 2001
                (SubscriptionCreate.mk 2 (Some true) 1))
      as (_ & _ & Hconflict & _).
    apply Hconflict.
    + solve_I1.
    + vm_compute. reflexivity.
    + exists (Plan.mk "Fortnight" 14 (Some true)). split; reflexivity.
    + exists 0%nat, (example_row (Some ACTIVE) true). by repeat split.
Defined.


(** The claim C2 fails for a long plan: the user exists and has no ACTIVE
    subscription, the plan of 3000000 days is active, and the create raises
    OverflowError (the end date is past [datetime.max]) and inserts
    nothing. *)
Lemma create_with_long_plan_overflows :
  1 ∈ users example_db_long_plan ∧
  active_plan example_db_long_plan 5 (Plan.mk "Millennia" 3000000 (Some true)) ∧
  ¬ has_active example_db_long_plan 1 ∧
  SubscriptionService.create_subscription 1762000000000000 1762000000000001
    (SubscriptionCreate.mk 5 (Some true) 1) example_db_long_plan =
    (Raise OverflowError, example_db_long_plan) ∧
  status_code OverflowError = 500.
Proof.
  split_and!.
  - vm_compute. reflexivity.
  - split; reflexivity.
  - solve_no_active.
  - vm_compute. reflexivity.
  - reflexivity.
Qed.

(** The claim C6 fails in its second half: cancelling for a user whose only
    subscription is CANCELLED is not a call that returns without effect, and
    the exception it raises is NotFound (answered with 404); the code has no
    InvalidState. *)
Lemma cancel_terminal_raises_not_found :
  subscriptions example_db_cancelled !! 0%nat =
    Some (example_row (Some CANCELLED) false) ∧
  terminal (example_row (Some CANCELLED) false) ∧
  SubscriptionService.cancel_subscription 1 example_db_cancelled =
    (Raise (NotFoundException "No active subscription found for user"),
     example_db_cancelled) ∧
  status_code (NotFoundException "No active subscription found for user")
    = 404 ∧
  ¬ ∃ s, (SubscriptionService.cancel_subscription 1 example_db_cancelled).1
         = Ok s.
Proof.
  split_and!; [reflexivity|by left|reflexivity|reflexivity|].
  intros [s Hs]. vm_compute in Hs. discriminate Hs.
Qed.

(** The claim C9 fails: a create followed by an update whose payload sets
    [status] to INACTIVE leads from a table without subscriptions to a table
    with an INACTIVE one. *)
Lemma update_reaches_inactive :
  no_inactive example_db_empty ∧
  ¬ no_inactive
      (run_calls example_db_empty
         [call_create 1000 1001 (SubscriptionCreate.mk 1 (Some true) 1);
          call_update 2000 2001 1
            (SubscriptionUpdate.mk None None (Some (Some INACTIVE)))]).
Proof.
  split.
  - intros i s Hi. case_rows Hi.
  - intros Hno.
    apply (Hno 0%nat
             (Subscription.mk 1 1 (Some 1) (Some INACTIVE) 1000 2592000001000
                (Some true) 1001)); reflexivity.
Qed.

Lemma inactive_only_by_update_payload_witness :
  no_inactive (run_calls example_db_empty example_scenario) ∧
  Subscription.status (example_row (Some INACTIVE) true) = Some INACTIVE ∧
  ∃ s',
    subscriptions
      (run_call example_db_active
         (call_update 2000 2001 1
            (SubscriptionUpdate.mk None None (Some (Some INACTIVE)))))
      !! 0%nat = Some s' ∧
    Subscription.status s' = Some INACTIVE.
Proof.
  split_and!.
  - destruct (inactive_only_by_update_payload example_db_empty) as [Hseq _].
    apply Hseq.
    + intros i s Hi. case_rows Hi.
    + repeat constructor; simpl; tauto.
  - destruct (inactive_only_by_update_payload example_db_active)
      as (_ & Hret & _).
    apply (Hret 2000 2001 1
             (SubscriptionUpdate.mk (Some (Some 4)) None
                (Some (Some INACTIVE)))
             (Subscription.set_plan_id (Some 4)
                (example_row (Some INACTIVE) true))
             (with_subscriptions
                [Subscription.set_plan_id (Some 4)
                   (example_row (Some INACTIVE) true)] example_db_active));
      [reflexivity|vm_compute; reflexivity].
  - destruct (inactive_only_by_update_payload example_db_active)
      as (_ & _ & Hupd).
    apply (Hupd 2000 2001 1 _ 0%nat (example_row (Some ACTIVE) true));
      [solve_the_active|reflexivity|reflexivity].
Defined.

Lemma get_subscription_by_user_spec_witness :
  (Subscription.status (example_row (Some ACTIVE) true) = Some ACTIVE ∨
   Subscription.status (example_row (Some ACTIVE) true) = Some INACTIVE) ∧
  subscriptions example_db_cancelled !! 0%nat =
    Some (example_row (Some CANCELLED) false) ∧
  SubscriptionService.get_subscription_by_user 1 example_db_cancelled =
    (Ok None, example_db_cancelled) ∧
  get_user_subscription 1 1 example_db_cancelled =
    (Raise (HTTPException 404 "No subscription found for user"),
     example_db_cancelled).
Proof.
  split_and!.
  - destruct (get_subscription_by_user_spec example_db_active 1) as [Hsome _].
    apply (Hsome (0%nat, example_row (Some ACTIVE) true)). reflexivity.
  - reflexivity.
  - destruct (get_subscription_by_user_spec example_db_cancelled 1)
      as [_ Hnone].
    apply Hnone. intros i s Hi _. case_rows Hi. injection Hi as <-. by left.
  - destruct (get_subscription_by_user_spec example_db_cancelled 1)
      as [_ Hnone].
    apply Hnone. intros i s Hi _. case_rows Hi. injection Hi as <-. by left.
Defined.

(** * Further properties *)

(** ** The effect of one call *)

Lemma select_active_plan_inv v db p :
  scalar_one_or_none (select_active_plan v db) = Ok (Some p) →
  ∃ pid, v = Some pid ∧ active_plan db pid p.
Proof.
  unfold select_active_plan. destruct v as [pid|]; [|done].
  destruct (plans db !! pid) as [p'|] eqn:Hp; [|done].
  destruct (decide _) as [Hact|]; [|done].
  intros [= <-]. by exists pid.
Qed.


Lemma handle_plan_change_ok t1 t2 d s db s1 db1 :
  SubscriptionService.handle_plan_change t1 t2 (model_dump_exclude_unset d) s db
    = (Ok s1, db1) →
  db1 = db ∧
  s1 = Subscription.set_end_date (Subscription.end_date s1) s ∧
  match SubscriptionUpdate.plan_id d with
  | None => True
  | Some v => ∃ pid p, v = Some pid ∧ active_plan db pid p
  end.
Proof.
  intros Hrun.
  destruct (handle_plan_change_inv _ _ _ _ _ _ _ Hrun) as [-> Hs1].
  split; [done|]. split; [by apply Hs1|].
  rewrite handle_plan_change_run, dict_plan_id_model_dump in Hrun.
  destruct (SubscriptionUpdate.plan_id d) as [v|]; [|done].
  destruct (scalar_one_or_none (select_active_plan v db)) as [[p|]|] eqn:Hp;
    [|done..].
  apply select_active_plan_inv in Hp as (pid & -> & Hp). by exists pid, p.
Qed.

Lemma run_call_effect db c : effect db c (run_call db c).
Proof.
  destruct c as [now db_now d|t1 t2 u d|u|t]; simpl.
  - rewrite create_subscription_run.
    destruct (decide _) as [Hu|]; [|constructor].
    destruct (scalar_one_or_none (select_active_plan _ db)) as [[p|]|] eqn:Hp;
      [|constructor..].
    apply select_active_plan_inv in Hp as (pid & [= <-] & Hp).
    destruct (scalar_one_or_none (select_where _ _)) as [[o|]|] eqn:Hq;
      [constructor| |constructor].
    apply query_active_none in Hq.
    destruct (timedelta_days _) as [delta|] eqn:Hdelta; [|constructor].
    destruct (datetime_add _ _) as [end_date|] eqn:Hadd; [|constructor].
    destruct (end_date_arithmetic_inv _ _ _ _ Hdelta Hadd) as [-> Hrange].
    by apply effect_create.
  - rewrite update_subscription_run.
    destruct (scalar_one_or_none (select_where _ _)) as [[[i loaded]|]|] eqn:Hq;
      [|constructor..].
    apply query_active_inv in Hq as [Hi Hact]. simpl in *.
    destruct (SubscriptionService.handle_plan_change _ _ _ _ _)
      as [[s1|e] db1] eqn:Hplan.
    + apply handle_plan_change_ok in Hplan as (-> & Hs1 & Hd). cbv zeta.
      destruct (commit _ db) as [r db2] eqn:Hc.
      assert (effect db (call_update t1 t2 u d) db2) as Heff.
      { apply commit_single_inv in Hc as [->| ->]; [constructor|].
        rewrite Hs1. by apply effect_update. }
      by destruct r as [[]|].
    + apply handle_plan_change_inv in Hplan as [-> _]. constructor.
  - unfold SubscriptionService.cancel_subscription, bind.
    rewrite get_active_subscription_by_user_run.
    destruct (scalar_one_or_none (select_where _ _)) as [[[i loaded]|]|] eqn:Hq;
      [|constructor..].
    apply query_active_inv in Hq as [Hi Hact]. simpl in *.
    rewrite commit_single by (simpl; tauto). simpl.
    by apply effect_cancel.
  - rewrite expire_subscriptions_run. simpl. constructor.
Qed.

(** ** Rows are kept, with their identity *)

Lemma setattr_loop_identity s l : same_identity s (foldl setattr s l).
Proof.
  revert s. induction l as [|it l IH]; intros s; [done|].
  destruct (IH (setattr s it)) as (Hid & Hu & Hst & Hc).
  unfold same_identity. cbn [foldl].
  rewrite Hid, Hu, Hst, Hc. by destruct it.
Qed.

Lemma expire_row_identity t s : same_identity s (expire_row t s).
Proof. unfold expire_row. by destruct (decide _). Qed.

Lemma same_identity_refl s : same_identity s s.
Proof. done. Qed.

(** Forwards: a row of the table before the call is at its position after
    the call, with the same key, user, start and creation time. *)
Lemma effect_row db c db' i s :
  effect db c db' → subscriptions db !! i = Some s →
  ∃ s', subscriptions db' !! i = Some s' ∧ same_identity s s'.
Proof.
  intros Heff Hi.
  destruct Heff as [c|now db_now d p Hu Hp Hno Hrange
                   |t1 t2 u d j sj e Hj Hact Hd|u j sj Hj Hact|t]; simpl.
  - by exists s.
  - exists s. split; [|done]. by apply lookup_app_l_Some.
  - destruct (decide (j = i)) as [->|Hne].
    + assert (sj = s) as -> by congruence.
      eexists. split.
      * apply list_lookup_insert_eq. by eapply lookup_lt_Some.
      * destruct (setattr_loop_identity (Subscription.set_end_date e s)
                    (model_dump_exclude_unset d)) as (? & ? & ? & ?).
        by repeat split.
    + exists s. by rewrite list_lookup_insert_ne.
  - destruct (decide (j = i)) as [->|Hne].
    + assert (sj = s) as -> by congruence.
      eexists. split.
      * apply list_lookup_insert_eq. by eapply lookup_lt_Some.
      * done.
    + exists s. by rewrite list_lookup_insert_ne.
  - exists (expire_row t s). split; [|apply expire_row_identity].
    by rewrite list_lookup_fmap, Hi.
Qed.

(** Backwards: a row of the table after the call is a row of the table
    before, at the same position, or the one row a create appended, which
    carries the next key of the sequence. *)
Lemma effect_row_back db c db' i s' :
  effect db c db' → subscriptions db' !! i = Some s' →
  (∃ s, subscriptions db !! i = Some s ∧ same_identity s s') ∨
  (i = length (subscriptions db) ∧
   Subscription.id s' = subscriptions_id_seq db ∧
   subscriptions_id_seq db' = subscriptions_id_seq db + 1).
Proof.
  intros Heff Hi'.
  destruct (subscriptions db !! i) as [s|] eqn:Hi.
  - left. exists s. split; [done|].
    destruct (effect_row _ _ _ _ _ Heff Hi) as (s'' & Hi'' & Hsame).
    congruence.
  - right. apply lookup_ge_None in Hi.
    destruct Heff as [c|now db_now d p Hu Hp Hno Hrange
                     |t1 t2 u d j sj e Hj Hact Hd|u j sj Hj Hact|t];
      simpl in *.
    + apply lookup_lt_Some in Hi'. lia.
    + apply lookup_snoc_Some in Hi' as [[Hlt _]|[-> <-]]; [lia|done].
    + apply lookup_lt_Some in Hi'. rewrite length_insert in Hi'. lia.
    + apply lookup_lt_Some in Hi'. rewrite length_insert in Hi'. lia.
    + apply lookup_lt_Some in Hi'. rewrite length_fmap in Hi'. lia.
Qed.

Lemma effect_seq db c db' :
  effect db c db' → subscriptions_id_seq db ≤ subscriptions_id_seq db'.
Proof. destruct 1; simpl; lia. Qed.

Lemma same_identity_trans s1 s2 s3 :
  same_identity s1 s2 → same_identity s2 s3 → same_identity s1 s3.
Proof. unfold same_identity. intros (?&?&?&?) (?&?&?&?). split_and!; congruence. Qed.

(** X1. No lifecycle call deletes or moves a subscription row or assigns its
    key, user, start date or creation time: after any sequence of calls every
    row is at its position with these four columns as they were. *)
Theorem subscription_history_retained db cs i s :
  subscriptions db !! i = Some s →
  ∃ s', subscriptions (run_calls db cs) !! i = Some s' ∧
        Subscription.id s' = Subscription.id s ∧
        Subscription.user_id s' = Subscription.user_id s ∧
        Subscription.start_date s' = Subscription.start_date s ∧
        Subscription.created_at s' = Subscription.created_at s.
Proof.
  revert db s. induction cs as [|c cs IH]; intros db s Hi.
  - by exists s.
  - simpl.
    destruct (effect_row _ _ _ _ _ (run_call_effect db c) Hi)
      as (s1 & Hi1 & Hsame1).
    destruct (IH _ _ Hi1) as (s' & Hi' & Hsame').
    exists s'. split; [done|].
    apply (same_identity_trans s s1 s'); [done|]. done.
Qed.

(** ** Keys *)

Lemma run_call_ids_ok db c : ids_ok db → ids_ok (run_call db c).
Proof.
  intros [Hlt Huniq]. pose proof (run_call_effect db c) as Heff.
  pose proof (effect_seq _ _ _ Heff) as Hseq.
  split.
  - intros i s' Hi'.
    destruct (effect_row_back _ _ _ _ _ Heff Hi')
      as [(s & Hi & Hid & _)|(_ & Hid & Hnext)].
    + rewrite Hid. specialize (Hlt i s Hi). lia.
    + lia.
  - intros i j si sj Hi Hj Hsame.
    destruct (effect_row_back _ _ _ _ _ Heff Hi)
      as [(si0 & Hi0 & Hidi & _)|(-> & Hidi & _)],
       (effect_row_back _ _ _ _ _ Heff Hj)
      as [(sj0 & Hj0 & Hidj & _)|(-> & Hidj & _)].
    + apply (Huniq i j si0 sj0); congruence.
    + specialize (Hlt i si0 Hi0). lia.
    + specialize (Hlt j sj0 Hj0). lia.
    + done.
Qed.

(** X2. The keys of the subscriptions stay distinct and below the next key
    of the sequence through every sequence of lifecycle calls. *)
Theorem subscription_ids_ok_preserved db cs :
  ids_ok db → ids_ok (run_calls db cs).
Proof.
  revert db. induction cs as [|c cs IH]; intros db Hok; [done|].
  simpl. by apply IH, run_call_ids_ok.
Qed.

(** ** Lookup by key *)

Lemma get_subscription_by_id_run subscription_id db :
  SubscriptionService.get_subscription_by_id subscription_id db =
    (scalar_one_or_none
       (select_where (SubscriptionService.has_id subscription_id)
                     (subscriptions db)),
     db).
Proof. reflexivity. Qed.

Lemma get_subscription_by_id_found db i s :
  ids_ok db → subscriptions db !! i = Some s →
  SubscriptionService.get_subscription_by_id (Subscription.id s) db =
    (Ok (Some (i, s)), db).
Proof.
  intros [_ Huniq] Hi. rewrite get_subscription_by_id_run.
  rewrite (select_where_unique _ _ i s); [done..|].
  intros j s' Hj Hid. by apply (Huniq j i s' s).
Qed.

(** X3. With distinct keys, [get_subscription_by_id] returns the row that
    carries the key, whatever its status, and none for a key that no row
    carries; it does not write. *)
Theorem get_subscription_by_id_spec db :
  ids_ok db →
  (∀ i s, subscriptions db !! i = Some s →
     SubscriptionService.get_subscription_by_id (Subscription.id s) db =
       (Ok (Some (i, s)), db)) ∧
  (∀ subscription_id,
     (∀ i s, subscriptions db !! i = Some s →
             Subscription.id s ≠ subscription_id) →
     SubscriptionService.get_subscription_by_id subscription_id db =
       (Ok None, db)).
Proof.
  intros Hok. split.
  - intros i s Hi. by apply get_subscription_by_id_found.
  - intros k Hno. rewrite get_subscription_by_id_run.
    replace (select_where _ _) with (@nil object); [done|].
    symmetry. apply select_where_nil. intros i s Hi Hid. by apply (Hno i s).
Qed.

(** The insertion of [create_subscription], for use in compositions. *)
Lemma create_subscription_inserts db now db_now d p :
  SubscriptionCreate.user_id d ∈ users db →
  active_plan db (SubscriptionCreate.plan_id d) p →
  ¬ has_active db (SubscriptionCreate.user_id d) →
  end_date_representable now (Plan.duration_days p) →
  SubscriptionService.create_subscription now db_now d db =
    (Ok (new_subscription db now db_now d p),
     mkDb (users db) (plans db)
          (subscriptions db ++ [new_subscription db now db_now d p])
          (subscriptions_id_seq db + 1)).
Proof.
  intros Hu Hp Hno Hrange.
  rewrite create_subscription_run, decide_True by done.
  rewrite (select_active_plan_found _ _ _ Hp). cbn [scalar_one_or_none].
  pose proof (get_active_none _ _ Hno) as Hget.
  rewrite get_active_subscription_by_user_run in Hget.
  injection Hget as ->.
  destruct (end_date_arithmetic _ _ Hrange) as [-> ->]. reflexivity.
Qed.

(** X4. POST /subscriptions creates the subscription for the authenticated
    user, whatever user id the payload names, and -- the end date being a
    datetime -- answers with the row just inserted, read back by its key. *)
Theorem post_subscription_returns_created db now db_now d current_user_id p :
  ids_ok db →
  current_user_id ∈ users db →
  active_plan db (SubscriptionCreate.plan_id d) p →
  ¬ has_active db current_user_id →
  end_date_representable now (Plan.duration_days p) →
  let d' := SubscriptionCreate.mk (SubscriptionCreate.plan_id d)
              (SubscriptionCreate.auto_renew d) current_user_id in
  let row := new_subscription db now db_now d' p in
  SubscriptionsApi.create_subscription now db_now d current_user_id db =
    (Ok (Some (length (subscriptions db), row)),
     mkDb (users db) (plans db) (subscriptions db ++ [row])
          (subscriptions_id_seq db + 1)) ∧
  Subscription.user_id row = current_user_id.
Proof.
  intros Hok Hu Hp Hno Hrange d' row. split; [|done].
  unfold SubscriptionsApi.create_subscription. cbv zeta. fold d'.
  assert ((if decide (SubscriptionCreate.user_id d ≠ current_user_id)
           then d' else d) = d') as ->.
  { destruct (decide _) as [|Heq]; [done|].
    apply dec_stable in Heq. destruct d; simpl in *. by subst. }
  unfold bind. rewrite (create_subscription_inserts db now db_now d' p);
    [|done..].
  fold row.
  set (db' := mkDb _ _ _ _).
  assert (ids_ok db') as Hok'.
  { pose proof (run_call_ids_ok db (call_create now db_now d') Hok) as H.
    simpl in H.
    by rewrite (create_subscription_inserts db now db_now d' p) in H. }
  apply (get_subscription_by_id_found db' (length (subscriptions db)) row Hok').
  unfold db'. simpl. by apply lookup_snoc_Some; right.
Qed.

(** ** Calls and requests of one user leave the rows of the others alone *)

Lemma effect_frame db c db' u i s :
  effect db c db' → targets u c →
  subscriptions db !! i = Some s → Subscription.user_id s ≠ u →
  subscriptions db' !! i = Some s.
Proof.
  intros Heff Ht Hi Hne.
  destruct Heff as [c|now db_now d p Hu Hp Hno Hrange
                   |t1 t2 u' d j sj e Hj Hact Hd|u' j sj Hj Hact|t];
    simpl in *.
  - done.
  - by apply lookup_app_l_Some.
  - subst u'. destruct Hact as [Hu _].
    rewrite list_lookup_insert_ne; [done|]. intros ->. congruence.
  - subst u'. destruct Hact as [Hu _].
    rewrite list_lookup_insert_ne; [done|]. intros ->. congruence.
  - done.
Qed.

(** Reading back by key after a computation does not write. *)
Lemma bind_get_subscription_by_id {A} (m : M A) (f : A → Z) db :
  (bind m (λ x, SubscriptionService.get_subscription_by_id (f x)) db).2 =
  (m db).2.
Proof. unfold bind. by destruct (m db) as [[a|e] db']. Qed.

Lemma get_user_subscription_reads user_id current_user_id db :
  (get_user_subscription user_id current_user_id db).2 = db.
Proof.
  unfold get_user_subscription. destruct (decide _); [done|].
  unfold bind. rewrite get_subscription_by_user_run.
  by destruct (scalar_one_or_none _) as [[o|]|].
Qed.

Lemma serve_as_call current_user_id db r :
  serve current_user_id db r = db ∨
  ∃ c, targets current_user_id c ∧ serve current_user_id db r = run_call db c.
Proof.
  destruct r as [now db_now d|u|t1 t2 u d|u|f]; simpl.
  - right. unfold SubscriptionsApi.create_subscription. cbv zeta.
    rewrite bind_get_subscription_by_id.
    eexists (call_create now db_now _). split; [|reflexivity].
    simpl. destruct (decide _) as [|Heq]; [done|]. by apply dec_stable in Heq.
  - left. apply get_user_subscription_reads.
  - unfold SubscriptionsApi.update_user_subscription.
    destruct (decide _) as [|Heq]; [by left|]. apply dec_stable in Heq.
    right. rewrite bind_get_subscription_by_id.
    by exists (call_update t1 t2 u d).
  - unfold SubscriptionsApi.cancel_user_subscription.
    destruct (decide _) as [|Heq]; [by left|]. apply dec_stable in Heq.
    right. exists (call_cancel u). split; [done|]. simpl.
    unfold bind.
    by destruct (SubscriptionService.cancel_subscription u db) as [[a|e] db'].
  - left. unfold SubscriptionsApi.get_all_subscriptions,
      SubscriptionService.get_all_subscriptions.
    by destruct f.
Qed.

(** X5. Through POST /subscriptions, GET, PUT and DELETE
    /subscriptions/{user_id} and GET /subscriptions, an authenticated user
    changes no subscription row of another user: after any sequence of such
    requests, each row of another user is exactly as it was. *)
Theorem requests_leave_other_users_rows current_user_id db rs i s :
  subscriptions db !! i = Some s →
  Subscription.user_id s ≠ current_user_id →
  subscriptions (foldl (serve current_user_id) db rs) !! i = Some s.
Proof.
  revert db. induction rs as [|r rs IH]; intros db Hi Hne; [done|].
  simpl. apply IH; [|done].
  destruct (serve_as_call current_user_id db r) as [->|(c & Ht & ->)];
    [done|].
  by eapply effect_frame; [apply run_call_effect|..].
Qed.

(** X6. At the service, [update_subscription] and [cancel_subscription] for
    a user, and [create_subscription] with that user in the payload, write
    to no row of another user, whether they return or raise. *)
Theorem service_calls_leave_other_users_rows db c u i s :
  targets u c →
  subscriptions db !! i = Some s →
  Subscription.user_id s ≠ u →
  subscriptions (run_call db c) !! i = Some s.
Proof.
  intros Ht Hi Hne. by eapply effect_frame; [apply run_call_effect|..].
Qed.

(** ** Soft deletion of plans *)

Lemma get_plan_by_id_run plan_id db :
  PlanService.get_plan_by_id plan_id db = (Ok (plans db !! plan_id), db).
Proof.
  unfold PlanService.get_plan_by_id, bind, execute, lift, select_plan.
  by destruct (plans db !! plan_id).
Qed.

Lemma delete_plan_run plan_id db :
  PlanService.delete_plan plan_id db =
    match plans db !! plan_id with
    | Some p =>
        (Ok true,
         mkDb (users db)
              (<[plan_id := Plan.mk (Plan.name p) (Plan.duration_days p)
                              (Some false)]> (plans db))
              (subscriptions db) (subscriptions_id_seq db))
    | None => (Raise (NotFoundException "Plan not found"), db)
    end.
Proof.
  unfold PlanService.delete_plan. unfold bind at 1.
  rewrite get_plan_by_id_run. by destruct (plans db !! plan_id).
Qed.

Lemma delete_plan_subscriptions plan_id db :
  subscriptions (PlanService.delete_plan plan_id db).2 = subscriptions db ∧
  users (PlanService.delete_plan plan_id db).2 = users db.
Proof. rewrite delete_plan_run. by destruct (plans db !! plan_id). Qed.

(** A soft deletion keeps every plan row. *)
Lemma delete_plan_keeps_rows plan_id db pid :
  is_Some (plans db !! pid) →
  is_Some (plans (PlanService.delete_plan plan_id db).2 !! pid).
Proof.
  rewrite delete_plan_run. destruct (plans db !! plan_id) as [p|] eqn:Hp;
    [|done].
  simpl. intros Hpid. rewrite lookup_insert. by destruct (decide _).
Qed.

(** ** Referential integrity and the errors of the ORM *)

Lemma run_call_ref_integrity db c :
  ref_integrity db → ref_integrity (run_call db c).
Proof.
  intros Hint.
  assert (∀ db', effect db c db' →
            users db' = users db ∧ plans db' = plans db) as Hsame.
  { by destruct 1. }
  pose proof (run_call_effect db c) as Heff.
  destruct (Hsame _ Heff) as [Hu Hp]. intros i s' Hi'. rewrite Hu, Hp.
  destruct Heff as [c|now db_now d p Hud Hpd Hno Hrange
                   |t1 t2 u d j sj e Hj Hact Hd|u j sj Hj Hact|t];
    simpl in *.
  - by apply (Hint i).
  - apply lookup_snoc_Some in Hi' as [[_ Hi]|[_ <-]]; [by apply (Hint i)|].
    split; [done|]. eexists. split; [done|]. destruct Hpd as [-> _]. done.
  - apply list_lookup_insert_Some in Hi' as [(<- & <- & _)|[_ Hi]];
      [|by apply (Hint i)].
    destruct (Hint _ _ Hj) as [Husr (pid & Hpid & Hplan)].
    rewrite setattr_loop_user_id, setattr_loop_plan_id. simpl.
    split; [done|].
    destruct (SubscriptionUpdate.plan_id d) as [v|]; simpl.
    + destruct Hd as (pid' & p' & -> & Hp' & _). exists pid'.
      split; [done|]. by rewrite Hp'.
    + by exists pid.
  - apply list_lookup_insert_Some in Hi' as [(<- & <- & _)|[_ Hi]];
      [|by apply (Hint i)].
    exact (Hint _ _ Hj).
  - rewrite list_lookup_fmap in Hi'.
    destruct (subscriptions db !! i) as [s|] eqn:Hi; [|done].
    injection Hi' as <-. unfold expire_row.
    pose proof (Hint i s Hi) as Hs. by destruct (decide _).
Qed.

Lemma run_action_ref_integrity db a :
  ref_integrity db → ref_integrity (run_action db a).
Proof.
  intros Hint. destruct a as [c|plan_id]; simpl.
  - by apply run_call_ref_integrity.
  - destruct (delete_plan_subscriptions plan_id db) as [Hs Hu].
    intros i s Hi. rewrite Hs in Hi. rewrite Hu.
    destruct (Hint i s Hi) as [Husr (pid & Hpid & Hplan)].
    split; [done|]. exists pid. split; [done|].
    by apply delete_plan_keeps_rows.
Qed.



Lemma run_actions_ref_integrity db acts :
  ref_integrity db → ref_integrity (run_actions db acts).
Proof.
  revert db. induction acts as [|a acts IH]; intros db Hint; [done|].
  simpl. by apply IH, run_action_ref_integrity.
Qed.

(** X7. The foreign keys of the subscriptions stay valid: if every
    subscription names an existing user and an existing plan, it does so
    after any sequence of lifecycle calls and soft deletions of plans. *)
Theorem referential_integrity_preserved db acts :
  ref_integrity db →
  ∀ i s, subscriptions (run_actions db acts) !! i = Some s →
    Subscription.user_id s ∈ users (run_actions db acts) ∧
    ∃ pid, Subscription.plan_id s = Some pid ∧
           is_Some (plans (run_actions db acts) !! pid).
Proof. intros Hint. exact (run_actions_ref_integrity db acts Hint). Qed.





(** ** Two current subscriptions *)

Lemma scalar_one_or_none_multiple {A} (l : list A) :
  (2 ≤ length l)%nat → scalar_one_or_none l = Raise MultipleResultsFound.
Proof. destruct l as [|a [|b l]]; simpl; [lia..|done]. Qed.

Lemma two_elements_length {A} (l : list A) a b :
  a ∈ l → b ∈ l → a ≠ b → (2 ≤ length l)%nat.
Proof.
  intros Ha Hb Hne. destruct l as [|x [|y l]]; simpl; [|exfalso|lia].
  - by apply elem_of_nil in Ha.
  - apply list_elem_of_singleton in Ha, Hb. congruence.
Qed.

Lemma get_subscription_by_user_multiple db u i j si sj :
  i ≠ j →
  subscriptions db !! i = Some si → SubscriptionService.current_of u si →
  subscriptions db !! j = Some sj → SubscriptionService.current_of u sj →
  SubscriptionService.get_subscription_by_user u db =
    (Raise MultipleResultsFound, db).
Proof.
  intros Hne Hi Hci Hj Hcj. rewrite get_subscription_by_user_run.
  rewrite scalar_one_or_none_multiple; [done|].
  unfold SubscriptionService.order_by_created_at_desc.
  rewrite (Permutation_length
             (merge_sort_Permutation SubscriptionService.created_at_desc _)).
  apply (two_elements_length _ (i, si) (j, sj)).
  - by apply select_where_elem.
  - by apply select_where_elem.
  - congruence.
Qed.

(** X9. When a user has two subscription rows whose status is ACTIVE or
    INACTIVE, [get_subscription_by_user] raises MultipleResultsFound instead
    of returning the most recent one, and GET /subscriptions/{user_id} of
    that user ends in this error, answered with 500; nothing is written. *)
Theorem get_subscription_by_user_two_current db u i j si sj :
  i ≠ j →
  subscriptions db !! i = Some si → SubscriptionService.current_of u si →
  subscriptions db !! j = Some sj → SubscriptionService.current_of u sj →
  SubscriptionService.get_subscription_by_user u db =
    (Raise MultipleResultsFound, db) ∧
  get_user_subscription u u db = (Raise MultipleResultsFound, db) ∧
  status_code MultipleResultsFound = 500.
Proof.
  intros Hne Hi Hci Hj Hcj.
  pose proof (get_subscription_by_user_multiple db u i j si sj
                Hne Hi Hci Hj Hcj) as Hget.
  split_and!; [done| |done].
  unfold get_user_subscription. rewrite decide_False by (by intros ?).
  unfold bind. by rewrite Hget.
Qed.

(** ** Updates that leave the plan alone *)

Lemma update_subscription_without_plan db t1 t2 u d i s :
  the_active db u i s →
  SubscriptionUpdate.plan_id d = None →
  SubscriptionService.update_subscription t1 t2 u d db =
    (Ok (foldl setattr s (model_dump_exclude_unset d)),
     with_subscriptions
       (<[i := foldl setattr s (model_dump_exclude_unset d)]> (subscriptions db))
       db).
Proof.
  intros Hthe Hd.
  pose proof (get_active_found _ _ _ _ Hthe) as Hget.
  rewrite get_active_subscription_by_user_run in Hget. injection Hget as Hget.
  rewrite update_subscription_run, Hget, handle_plan_change_run.
  rewrite dict_plan_id_model_dump, Hd. cbv beta iota zeta.
  rewrite commit_single; [done|].
  rewrite setattr_loop_plan_id, Hd. simpl. tauto.
Qed.

(** X10. An update whose payload does not name a plan returns and writes
    the user's ACTIVE subscription with [auto_renew] and [status] replaced
    by the payload's values where the payload sets them and kept otherwise;
    [end_date] and the plan are kept.  With an empty payload the database is
    left exactly as it was. *)
Theorem update_subscription_without_plan_spec db t1 t2 u d i s :
  the_active db u i s →
  SubscriptionUpdate.plan_id d = None →
  ∃ s',
    SubscriptionService.update_subscription t1 t2 u d db =
      (Ok s', with_subscriptions (<[i := s']> (subscriptions db)) db) ∧
    Subscription.auto_renew s' =
      default (Subscription.auto_renew s) (SubscriptionUpdate.auto_renew d) ∧
    Subscription.status s' =
      default (Subscription.status s) (SubscriptionUpdate.status d) ∧
    Subscription.end_date s' = Subscription.end_date s ∧
    Subscription.plan_id s' = Subscription.plan_id s ∧
    (SubscriptionUpdate.auto_renew d = None →
     SubscriptionUpdate.status d = None →
     SubscriptionService.update_subscription t1 t2 u d db = (Ok s, db)).
Proof.
  intros Hthe Hd. eexists. split_and!.
  - by apply update_subscription_without_plan.
  - apply setattr_loop_auto_renew.
  - apply setattr_loop_status.
  - apply setattr_loop_end_date.
  - by rewrite setattr_loop_plan_id, Hd.
  - intros Har Hst.
    rewrite (update_subscription_without_plan db t1 t2 u d i s Hthe Hd).
    assert (model_dump_exclude_unset d = []) as ->.
    { destruct d; simpl in *. by subst. }
    simpl. destruct Hthe as [Hi _].
    rewrite list_insert_id by done. by rewrite with_subscriptions_id.
Qed.

(** ** Failing updates and cancels *)

Lemma update_subscription_raise_unchanged db t1 t2 u d e db' :
  SubscriptionService.update_subscription t1 t2 u d db = (Raise e, db') →
  db' = db.
Proof.
  rewrite update_subscription_run.
  destruct (scalar_one_or_none (select_where _ _)) as [[[i s]|]|];
    [|congruence..].
  destruct (SubscriptionService.handle_plan_change _ _ _ _ _)
    as [[s1|e1] db1] eqn:Hplan;
    apply handle_plan_change_inv in Hplan as [-> _]; [|congruence].
  cbv zeta.
  destruct (decide (Subscription.plan_id
                      (foldl setattr s1 (model_dump_exclude_unset d)) = None ∧
                    Subscription.plan_id s ≠ None)) as [Hbad|Hok].
  - rewrite commit_single_rejected by done. congruence.
  - rewrite commit_single by done. congruence.
Qed.

Lemma cancel_subscription_raise_unchanged db u e db' :
  SubscriptionService.cancel_subscription u db = (Raise e, db') → db' = db.
Proof.
  unfold SubscriptionService.cancel_subscription, bind.
  rewrite get_active_subscription_by_user_run.
  destruct (scalar_one_or_none (select_where _ _)) as [[[i s]|]|];
    [|unfold raise; congruence..].
  rewrite commit_single by (simpl; tauto). unfold ret. congruence.
Qed.

(** X11. [update_subscription] and [cancel_subscription] write nothing when
    they raise: the database after a raising call is the database before. *)
Theorem update_and_cancel_raise_unchanged db :
  (∀ t1 t2 u d e db',
     SubscriptionService.update_subscription t1 t2 u d db = (Raise e, db') →
     db' = db) ∧
  (∀ u e db',
     SubscriptionService.cancel_subscription u db = (Raise e, db') →
     db' = db).
Proof.
  split.
  - intros t1 t2 u d e db'. apply update_subscription_raise_unchanged.
  - intros u e db'. apply cancel_subscription_raise_unchanged.
Qed.

Lemma select_active_plan_nil v db :
  (∀ pid p, v = Some pid → ¬ active_plan db pid p) →
  select_active_plan v db = [].
Proof.
  intros Hno. unfold select_active_plan. destruct v as [pid|]; [|done].
  destruct (plans db !! pid) as [p|] eqn:Hp; [|done].
  destruct (decide _) as [Hact|]; [|done]. by destruct (Hno pid p).
Qed.

(** X12. For a user with an ACTIVE subscription, an update whose payload
    names a plan that is missing or not active, or carries a null plan id,
    raises NotFound "Plan not found or inactive" and writes nothing, whatever
    else the payload sets. *)
Theorem update_subscription_plan_not_found db t1 t2 u d i s v :
  the_active db u i s →
  SubscriptionUpdate.plan_id d = Some v →
  (∀ pid p, v = Some pid → ¬ active_plan db pid p) →
  SubscriptionService.update_subscription t1 t2 u d db =
    (Raise (NotFoundException "Plan not found or inactive"), db).
Proof.
  intros Hthe Hd Hno.
  pose proof (get_active_found _ _ _ _ Hthe) as Hget.
  rewrite get_active_subscription_by_user_run in Hget. injection Hget as Hget.
  rewrite update_subscription_run, Hget, handle_plan_change_run.
  rewrite dict_plan_id_model_dump, Hd.
  by rewrite select_active_plan_nil.
Qed.

(** ** A subscription that stops being ACTIVE frees its user *)

Lemma rewrite_frees_user db u i s s' :
  the_active db u i s →
  Subscription.status s' ≠ Some ACTIVE →
  ¬ has_active (with_subscriptions (<[i := s']> (subscriptions db)) db) u.
Proof.
  intros (Hi & Hact & Huniq) Hs' (j & sj & Hj & Hactj). simpl in Hj.
  apply list_lookup_insert_Some in Hj as [(<- & <- & _)|[Hne Hj]].
  - by destruct Hactj.
  - by destruct Hne; symmetry; apply (Huniq j sj).
Qed.

Lemma expire_frees_user db u i s t :
  the_active db u i s →
  Subscription.end_date s ≤ t →
  ¬ has_active
      (with_subscriptions (expire_row t <$> subscriptions db) db) u.
Proof.
  intros (Hi & Hact & Huniq) Hdue (j & sj' & Hj & Hactj). simpl in Hj.
  rewrite list_lookup_fmap in Hj.
  destruct (subscriptions db !! j) as [sj|] eqn:Hj0; [|done].
  injection Hj as <-. unfold expire_row in Hactj.
  destruct (decide (SubscriptionService.due t sj)) as [|Hnot].
  - destruct Hactj as [_ Hst]. simpl in Hst. congruence.
  - pose proof (Huniq j sj Hj0 Hactj) as ->.
    assert (sj = s) as -> by congruence.
    apply Hnot. split; [by destruct Hact|done].
Qed.

(** X13. After a successful cancel the user can subscribe again: for a user
    with an ACTIVE subscription, [cancel_subscription] followed by
    [create_subscription] for that user and an active plan inserts a new
    ACTIVE subscription, the end date being a datetime. *)
Theorem cancel_then_create_succeeds db u i s now db_now d p :
  the_active db u i s →
  SubscriptionCreate.user_id d = u →
  u ∈ users db →
  active_plan db (SubscriptionCreate.plan_id d) p →
  end_date_representable now (Plan.duration_days p) →
  let db1 := (SubscriptionService.cancel_subscription u db).2 in
  SubscriptionService.create_subscription now db_now d db1 =
    (Ok (new_subscription db1 now db_now d p),
     mkDb (users db) (plans db)
          (subscriptions db1 ++ [new_subscription db1 now db_now d p])
          (subscriptions_id_seq db + 1)) ∧
  Subscription.status (new_subscription db1 now db_now d p) = Some ACTIVE.
Proof.
  intros Hthe Hd Hu Hp Hrange db1. split; [|done].
  assert (db1 = with_subscriptions
                  (<[i := Subscription.set_auto_renew (Some false)
                            (Subscription.set_status (Some CANCELLED) s)]>
                     (subscriptions db)) db) as Hdb1.
  { unfold db1, SubscriptionService.cancel_subscription, bind.
    rewrite (get_active_found _ _ _ _ Hthe).
    by rewrite commit_single by (simpl; tauto). }
  rewrite (create_subscription_inserts db1 now db_now d p).
  - by rewrite Hdb1.
  - by rewrite Hdb1, Hd.
  - by rewrite Hdb1.
  - rewrite Hdb1, Hd. by apply (rewrite_frees_user db u i s).
  - done.
Qed.

(** X14. After the sweep has expired a user's subscription the user can
    subscribe again: for a user whose ACTIVE subscription ends at or before
    [t], [expire_subscriptions] at [t] followed by [create_subscription] for
    that user and an active plan inserts a new ACTIVE subscription, the end
    date being a datetime. *)
Theorem expire_then_create_succeeds db u i s t now db_now d p :
  the_active db u i s →
  Subscription.end_date s ≤ t →
  SubscriptionCreate.user_id d = u →
  u ∈ users db →
  active_plan db (SubscriptionCreate.plan_id d) p →
  end_date_representable now (Plan.duration_days p) →
  let db1 := (SubscriptionService.expire_subscriptions t db).2 in
  SubscriptionService.create_subscription now db_now d db1 =
    (Ok (new_subscription db1 now db_now d p),
     mkDb (users db) (plans db)
          (subscriptions db1 ++ [new_subscription db1 now db_now d p])
          (subscriptions_id_seq db + 1)) ∧
  Subscription.status (new_subscription db1 now db_now d p) = Some ACTIVE.
Proof.
  intros Hthe Hdue Hd Hu Hp Hrange db1. split; [|done].
  assert (db1 = with_subscriptions (expire_row t <$> subscriptions db) db)
    as Hdb1.
  { unfold db1. by rewrite expire_subscriptions_run. }
  rewrite (create_subscription_inserts db1 now db_now d p).
  - by rewrite Hdb1.
  - by rewrite Hdb1, Hd.
  - by rewrite Hdb1.
  - rewrite Hdb1, Hd. by eapply expire_frees_user.
  - done.
Qed.

(** X15. Setting the status of the ACTIVE subscription to INACTIVE by an
    update and then creating a subscription for the same user and an active
    plan (the end date being a datetime) succeeds, and leaves the user with
    two current subscriptions: the old row, now INACTIVE, and a new ACTIVE
    row at the end of the table.  From then on GET /subscriptions/{user_id}
    of that user ends in MultipleResultsFound. *)
Theorem inactive_then_create_breaks_get db u i s t1 t2 now db_now d p :
  the_active db u i s →
  SubscriptionCreate.user_id d = u →
  u ∈ users db →
  active_plan db (SubscriptionCreate.plan_id d) p →
  end_date_representable now (Plan.duration_days p) →
  let db2 :=
    run_calls db
      [call_update t1 t2 u
         (SubscriptionUpdate.mk None None (Some (Some INACTIVE)));
       call_create now db_now d] in
  length (subscriptions db2) = S (length (subscriptions db)) ∧
  subscriptions db2 !! i = Some (Subscription.set_status (Some INACTIVE) s) ∧
  (∃ row, subscriptions db2 !! length (subscriptions db) = Some row ∧
          Subscription.user_id row = u ∧
          Subscription.status row = Some ACTIVE) ∧
  get_user_subscription u u db2 = (Raise MultipleResultsFound, db2).
Proof.
  intros Hthe Hd Hu Hp Hrange db2.
  set (s1 := Subscription.set_status (Some INACTIVE) s).
  set (db1 := with_subscriptions (<[i := s1]> (subscriptions db)) db).
  assert (run_call db
            (call_update t1 t2 u
               (SubscriptionUpdate.mk None None (Some (Some INACTIVE)))) = db1)
    as Hstep1.
  { simpl. by rewrite (update_subscription_without_plan db t1 t2 u _ i s). }
  assert (db2 = mkDb (users db) (plans db)
                  (subscriptions db1 ++ [new_subscription db1 now db_now d p])
                  (subscriptions_id_seq db + 1)) as Hdb2.
  { unfold db2. cbn [run_calls foldl]. rewrite Hstep1. cbn [run_call].
    rewrite (create_subscription_inserts db1 now db_now d p); [done|..].
    - by rewrite Hd.
    - done.
    - rewrite Hd. by apply (rewrite_frees_user db u i s).
    - done. }
  pose proof Hthe as (Hi & [Hus _] & _).
  assert (i < length (subscriptions db))%nat as Hlt
    by by eapply lookup_lt_Some.
  assert (subscriptions db2 !! i = Some s1) as Hrow1.
  { rewrite Hdb2. simpl. apply lookup_app_l_Some.
    by apply list_lookup_insert_eq. }
  assert (subscriptions db2 !! length (subscriptions db) =
            Some (new_subscription db1 now db_now d p)) as Hrow2.
  { rewrite Hdb2. simpl. apply lookup_snoc_Some. right.
    by rewrite length_insert. }
  split_and!.
  - rewrite Hdb2. simpl. rewrite length_app, length_insert. simpl. lia.
  - done.
  - by eexists.
  - unfold get_user_subscription. rewrite decide_False by (by intros ?).
    unfold bind.
    rewrite (get_subscription_by_user_multiple db2 u i
               (length (subscriptions db)) s1
               (new_subscription db1 now db_now d p)); [done|lia|done| |done|].
    + split; [done|]. by right.
    + split; [done|]. by left.
Qed.

(** ** Listings *)

Lemma select_where_any_row (rows : list Subscription.t) :
  (select_where SubscriptionService.any_row rows).*2 = rows.
Proof.
  unfold select_where.
  assert (∀ f : nat → Subscription.t → object,
            filter (λ o : object, SubscriptionService.any_row o.2) (imap f rows)
            = imap f rows) as ->.
  { induction rows as [|s rows IH]; intros f; [done|].
    simpl. rewrite filter_cons, decide_True by done. by rewrite IH. }
  apply list_eq. intros i.
  rewrite list_lookup_fmap, list_lookup_imap.
  by destruct (rows !! i).
Qed.

Lemma status_partition (rows : list Subscription.t) :
  length rows =
    (length (filter (SubscriptionService.has_status ACTIVE) rows) +
     length (filter (SubscriptionService.has_status INACTIVE) rows) +
     length (filter (SubscriptionService.has_status CANCELLED) rows) +
     length (filter (SubscriptionService.has_status EXPIRED) rows) +
     length (filter (λ s, Subscription.status s = None) rows))%nat.
Proof.
  induction rows as [|s rows IH]; [done|].
  rewrite !filter_cons.
  destruct (decide (SubscriptionService.has_status ACTIVE s)),
           (decide (SubscriptionService.has_status INACTIVE s)),
           (decide (SubscriptionService.has_status CANCELLED s)),
           (decide (SubscriptionService.has_status EXPIRED s)),
           (decide (Subscription.status s = None));
    unfold SubscriptionService.has_status in *;
    first [ simpl; lia
          | exfalso; destruct (Subscription.status s) as [[]|]; congruence ].
Qed.

(** X16. [get_all_subscriptions] without a filter lists every row of the
    table once; with a status it lists exactly the rows of that status; a
    row is in at most one of the four filtered listings, and the rows in
    none of them are those whose status is null: the lengths add up. *)
Theorem get_all_subscriptions_spec db :
  ∃ every active inactive cancelled expired,
    SubscriptionService.get_all_subscriptions None db = (Ok every, db) ∧
    SubscriptionService.get_all_subscriptions (Some ACTIVE) db
      = (Ok active, db) ∧
    SubscriptionService.get_all_subscriptions (Some INACTIVE) db
      = (Ok inactive, db) ∧
    SubscriptionService.get_all_subscriptions (Some CANCELLED) db
      = (Ok cancelled, db) ∧
    SubscriptionService.get_all_subscriptions (Some EXPIRED) db
      = (Ok expired, db) ∧
    every.*2 ≡ₚ subscriptions db ∧
    (∀ i s, (i, s) ∈ active ↔
       subscriptions db !! i = Some s ∧ Subscription.status s = Some ACTIVE) ∧
    (∀ i s, (i, s) ∈ inactive ↔
       subscriptions db !! i = Some s ∧ Subscription.status s = Some INACTIVE) ∧
    (∀ i s, (i, s) ∈ cancelled ↔
       subscriptions db !! i = Some s ∧ Subscription.status s = Some CANCELLED) ∧
    (∀ i s, (i, s) ∈ expired ↔
       subscriptions db !! i = Some s ∧ Subscription.status s = Some EXPIRED) ∧
    length every =
      (length active + length inactive + length cancelled + length expired +
       length (filter (λ s, Subscription.status s = None)
                      (subscriptions db)))%nat.
Proof.
  do 5 eexists. split_and!; try reflexivity.
  - by rewrite select_where_any_row.
  - intros i s. apply (select_where_elem (SubscriptionService.has_status ACTIVE)).
  - intros i s. apply (select_where_elem (SubscriptionService.has_status INACTIVE)).
  - intros i s. apply (select_where_elem (SubscriptionService.has_status CANCELLED)).
  - intros i s. apply (select_where_elem (SubscriptionService.has_status EXPIRED)).
  - rewrite <- (length_fmap snd (select_where SubscriptionService.any_row _)).
    rewrite select_where_any_row, !select_where_length.
    apply status_partition.
Qed.

(** ** The plan catalog *)

(** X17. [delete_plan] is a soft delete.  For an existing plan it returns
    true and only clears [is_active] of that plan: the plan can still be
    read by its key, with its name and duration; the other plans, the
    subscriptions and the users are as they were; the plan is listed by
    [get_all_plans] with inactive plans included and not listed without.
    For a missing plan it raises NotFound and writes nothing. *)
Theorem delete_plan_spec db plan_id :
  (∀ p, plans db !! plan_id = Some p →
     let r := PlanService.delete_plan plan_id db in
     let p' := Plan.mk (Plan.name p) (Plan.duration_days p) (Some false) in
     r.1 = Ok true ∧
     PlanService.get_plan_by_id plan_id r.2 = (Ok (Some p'), r.2) ∧
     (∀ q, q ≠ plan_id → plans r.2 !! q = plans db !! q) ∧
     subscriptions r.2 = subscriptions db ∧ users r.2 = users db ∧
     (∃ l, PlanService.get_all_plans true r.2 = (Ok l, r.2) ∧
           (plan_id, p') ∈ l) ∧
     (∃ l, PlanService.get_all_plans false r.2 = (Ok l, r.2) ∧
           plan_id ∉ l.*1)) ∧
  (plans db !! plan_id = None →
     PlanService.delete_plan plan_id db =
       (Raise (NotFoundException "Plan not found"), db)).
Proof.
  split.
  - intros p Hp r p'. unfold r. rewrite delete_plan_run, Hp. simpl.
    split_and!; try done.
    + rewrite get_plan_by_id_run. simpl. by rewrite lookup_insert_eq.
    + intros q Hq. by rewrite lookup_insert_ne.
    + eexists. split; [reflexivity|]. simpl.
      apply elem_of_map_to_list. apply lookup_insert_eq.
    + eexists. split; [reflexivity|]. simpl.
      intros ([q pq] & Hq & Hin)%list_elem_of_fmap. simpl in Hq. subst q.
      apply list_elem_of_filter in Hin as [Hact Hin]. simpl in Hact.
      apply elem_of_map_to_list in Hin. rewrite lookup_insert_eq in Hin.
      injection Hin as <-. done.
  - intros Hp. by rewrite delete_plan_run, Hp.
Qed.

(** X18. Deleting a plan twice is deleting it once: the second
    [delete_plan] returns true again (not NotFound) and leaves the database
    of the first. *)
Theorem delete_plan_twice db plan_id p :
  plans db !! plan_id = Some p →
  let db1 := (PlanService.delete_plan plan_id db).2 in
  PlanService.delete_plan plan_id db1 = (Ok true, db1).
Proof.
  intros Hp db1. unfold db1. rewrite (delete_plan_run plan_id db), Hp. simpl.
  rewrite delete_plan_run. simpl. rewrite lookup_insert_eq. simpl.
  by rewrite insert_insert_eq.
Qed.

Lemma delete_plan_no_active_plan db plan_id :
  no_active_plan (PlanService.delete_plan plan_id db).2 plan_id.
Proof.
  intros p [Hp Hact]. rewrite delete_plan_run in Hp.
  destruct (plans db !! plan_id) as [p0|] eqn:Hp0; simpl in Hp.
  - rewrite lookup_insert_eq in Hp. injection Hp as <-. done.
  - congruence.
Qed.

(** X19. A deleted plan takes no new subscription: after [delete_plan],
    [create_subscription] for that plan raises NotFound and inserts nothing,
    for every user; and for a user with an ACTIVE subscription
    [update_subscription] to that plan raises NotFound and writes nothing. *)
Theorem deleted_plan_takes_no_subscription db plan_id :
  let db1 := (PlanService.delete_plan plan_id db).2 in
  (∀ now db_now d,
     SubscriptionCreate.plan_id d = plan_id →
     ∃ detail,
       SubscriptionService.create_subscription now db_now d db1 =
         (Raise (NotFoundException detail), db1)) ∧
  (∀ t1 t2 u d i s,
     the_active db1 u i s →
     SubscriptionUpdate.plan_id d = Some (Some plan_id) →
     SubscriptionService.update_subscription t1 t2 u d db1 =
       (Raise (NotFoundException "Plan not found or inactive"), db1)).
Proof.
  intros db1. split.
  - intros now db_now d Hd. apply create_subscription_plan_not_found.
    rewrite Hd. apply delete_plan_no_active_plan.
  - intros t1 t2 u d i s Hthe Hd.
    pose proof (get_active_found _ _ _ _ Hthe) as Hget.
    rewrite get_active_subscription_by_user_run in Hget.
    injection Hget as Hget.
    rewrite update_subscription_run, Hget, handle_plan_change_run.
    rewrite dict_plan_id_model_dump, Hd.
    rewrite select_active_plan_nil; [done|].
    intros pid p [= <-]. apply delete_plan_no_active_plan.
Qed.

(** X20. GET /plans/{plan_id} returns the plan with that key, active or
    not; for a key without a plan the [raise] of the endpoint fails on the
    unbound name [HTTPException]: the request ends in a NameError, not in
    the 404 the statement spells out.  Nothing is written. *)
Theorem get_plan_spec db plan_id :
  (∀ p, plans db !! plan_id = Some p →
     PlansApi.get_plan plan_id db = (Returned p, db)) ∧
  (plans db !! plan_id = None →
     PlansApi.get_plan plan_id db = (NameError "HTTPException", db)).
Proof.
  unfold PlansApi.get_plan. rewrite get_plan_by_id_run.
  split; [intros p Hp|intros Hp]; by rewrite Hp.
Qed.

(** ** Subscribers of a deleted plan *)

Lemma update_subscription_switch
    db t1 t2 u d i s new_plan_id p current_plan_id current :
  the_active db u i s →
  SubscriptionUpdate.plan_id d = Some (Some new_plan_id) →
  active_plan db new_plan_id p →
  Subscription.plan_id s = Some current_plan_id →
  plans db !! current_plan_id = Some current →
  let s' := foldl setattr s (model_dump_exclude_unset d) in
  SubscriptionService.update_subscription t1 t2 u d db =
    if decide (Plan.duration_days p ≠ Plan.duration_days current)
    then (Raise TypeError, db)
    else (Ok s', with_subscriptions (<[i := s']> (subscriptions db)) db).
Proof.
  intros Hthe Hd Hp Hcur Hcurrent s'.
  pose proof (get_active_found _ _ _ _ Hthe) as Hget.
  rewrite get_active_subscription_by_user_run in Hget. injection Hget as Hget.
  rewrite update_subscription_run, Hget, handle_plan_change_run.
  rewrite dict_plan_id_model_dump, Hd.
  rewrite (select_active_plan_found _ _ _ Hp). cbn [scalar_one_or_none].
  unfold select_plan. rewrite Hcur, Hcurrent.
  change (scalar_one (option_list (Some current))) with (Ok current).
  cbv beta iota. destruct (decide _); [done|].
  cbv beta iota zeta. fold s'.
  rewrite commit_single; [done|].
  unfold s'. rewrite setattr_loop_plan_id, Hd. by intros [? _].
Qed.

(** X21. Deleting the plan a subscription is bound to leaves the
    subscription as it is, and the lookup of the current plan in
    [update_subscription], which does not filter on [is_active], still finds
    the deleted plan: after [delete_plan] of the bound plan, a switch to
    another active plan of the same duration succeeds, rebinds the
    subscription and keeps [end_date]; a switch to a plan of a different
    duration ends in the TypeError of the plan switch, as it does without the
    deletion, and writes nothing. *)
Theorem switch_from_deleted_plan
    db t1 t2 u d i s new_plan_id p current_plan_id current :
  the_active db u i s →
  Subscription.plan_id s = Some current_plan_id →
  plans db !! current_plan_id = Some current →
  SubscriptionUpdate.plan_id d = Some (Some new_plan_id) →
  new_plan_id ≠ current_plan_id →
  active_plan db new_plan_id p →
  let db1 := (PlanService.delete_plan current_plan_id db).2 in
  subscriptions db1 = subscriptions db ∧
  (Plan.duration_days p = Plan.duration_days current →
     ∃ s',
       SubscriptionService.update_subscription t1 t2 u d db1 =
         (Ok s', with_subscriptions (<[i := s']> (subscriptions db)) db1) ∧
       Subscription.plan_id s' = Some new_plan_id ∧
       Subscription.end_date s' = Subscription.end_date s) ∧
  (Plan.duration_days p ≠ Plan.duration_days current →
     SubscriptionService.update_subscription t1 t2 u d db1 =
       (Raise TypeError, db1)).
Proof.
  intros Hthe Hcur Hcurrent Hd Hne [Hp Hact] db1.
  assert (db1 = mkDb (users db)
                  (<[current_plan_id :=
                       Plan.mk (Plan.name current) (Plan.duration_days current)
                         (Some false)]> (plans db))
                  (subscriptions db) (subscriptions_id_seq db)) as Hdb1.
  { unfold db1. by rewrite delete_plan_run, Hcurrent. }
  split; [by rewrite Hdb1|].
  assert (the_active db1 u i s) as Hthe1 by by rewrite Hdb1.
  assert (active_plan db1 new_plan_id p) as Hp1.
  { split; [|done]. rewrite Hdb1. simpl. by rewrite lookup_insert_ne. }
  assert (plans db1 !! current_plan_id =
            Some (Plan.mk (Plan.name current) (Plan.duration_days current)
                    (Some false))) as Hcurrent1.
  { rewrite Hdb1. simpl. by rewrite lookup_insert_eq. }
  pose proof (update_subscription_switch db1 t1 t2 u d i s new_plan_id p
                current_plan_id _ Hthe1 Hd Hp1 Hcur Hcurrent1) as Hrun.
  cbv zeta in Hrun. simpl Plan.duration_days in Hrun.
  split.
  - intros Heq. rewrite decide_False in Hrun by (by intros ?).
    eexists. split_and!.
    + rewrite Hrun. by rewrite Hdb1.
    + by rewrite setattr_loop_plan_id, Hd.
    + by rewrite setattr_loop_end_date.
  - intros Hdiff. by rewrite decide_True in Hrun.
Qed.

(** * The further properties on the example data *)

(** The keys of a concrete table are distinct and below the sequence. *)
Ltac solve_ids_ok :=
  let i := fresh "i" in let j := fresh "j" in
  let Hi := fresh "Hi" in let Hj := fresh "Hj" in let Hid := fresh "Hid" in
  split;
  [ intros i ? Hi; case_rows Hi; injection Hi as <-; simpl; lia
  | intros i j ? ? Hi Hj Hid; case_rows Hi; case_rows Hj;
    first [reflexivity
          | injection Hi as <-; injection Hj as <-; simpl in Hid;
            discriminate Hid] ].

(** The foreign keys of a concrete table are valid. *)
Ltac solve_ref_integrity :=
  let i := fresh "i" in let Hi := fresh "Hi" in
  intros i ? Hi; case_rows Hi; injection Hi as <-;
  (split; [vm_compute; reflexivity
          |eexists; split; [reflexivity|vm_compute; eexists; reflexivity]]).

Lemma subscription_history_retained_witness :
  ∃ s',
    subscriptions (run_calls example_db_active example_scenario) !! 0%nat
      = Some s' ∧
    Subscription.id s' = 1 ∧ Subscription.user_id s' = 1 ∧
    Subscription.start_date s' = 1000 ∧ Subscription.created_at s' = 1001.
Proof.
  apply (subscription_history_retained example_db_active example_scenario
           0 (example_row (Some ACTIVE) true)).
  reflexivity.
Defined.

Lemma subscription_ids_ok_preserved_witness :
  ids_ok (run_calls example_db_active example_scenario).
Proof.
  apply (subscription_ids_ok_preserved example_db_active example_scenario).
  solve_ids_ok.
Defined.

Lemma get_subscription_by_id_spec_witness :
  SubscriptionService.get_subscription_by_id 1 example_db_active =
    (Ok (Some (0%nat, example_row (Some ACTIVE) true)), example_db_active) ∧
  SubscriptionService.get_subscription_by_id 7 example_db_active =
    (Ok None, example_db_active).
Proof.
  destruct (get_subscription_by_id_spec example_db_active)
    as [Hfound Hnone]; [solve_ids_ok|].
  split.
  - apply (Hfound 0%nat (example_row (Some ACTIVE) true)). reflexivity.
  - apply Hnone. intros i s Hi. case_rows Hi. injection Hi as <-.
    simpl. discriminate.
Defined.

Lemma post_subscription_returns_created_witness :
  let row := Subscription.mk 1 1 (Some 2) (Some ACTIVE) 1000 1209600001000
               (Some true) 1001 in
  SubscriptionsApi.create_subscription 1000 1001
    (SubscriptionCreate.mk 2 None 3) 1 example_db_empty =
    (Ok (Some (0%nat, row)), mkDb example_users example_plans [row] 2).
Proof.
  destruct (post_subscription_returns_created example_db_empty 1000 1001
              (SubscriptionCreate.mk 2 None 3) 1
              (Plan.mk "Fortnight" 14 (Some true)))
    as [Hrun _];
    [solve_ids_ok|vm_compute; reflexivity|split; reflexivity
    |solve_no_active|solve_representable|].
  exact Hrun.
Defined.

Lemma requests_leave_other_users_rows_witness :
  subscriptions
    (foldl (serve 1) example_db_three
       [POST_subscription 6000 6001 (SubscriptionCreate.mk 2 None 2);
        PUT_subscription 6100 6101 1
          (SubscriptionUpdate.mk (Some (Some 2)) None None);
        PUT_subscription 6200 6201 2
          (SubscriptionUpdate.mk None None (Some (Some CANCELLED)));
        DELETE_subscription 2;
        DELETE_subscription 1;
        GET_subscription 2;
        GET_subscriptions None]) !! 1%nat =
  Some (Subscription.mk 2 2 (Some 1) (Some ACTIVE) 1000 5000 (Some true) 1001).
Proof.
  apply requests_leave_other_users_rows; [reflexivity|].
  simpl. discriminate.
Defined.

Lemma service_calls_leave_other_users_rows_witness :
  subscriptions (run_call example_db_three (call_cancel 1)) !! 1%nat =
  Some (Subscription.mk 2 2 (Some 1) (Some ACTIVE) 1000 5000 (Some true) 1001).
Proof.
  apply (service_calls_leave_other_users_rows example_db_three
           (call_cancel 1) 1); [reflexivity|reflexivity|].
  simpl. discriminate.
Defined.

Lemma referential_integrity_preserved_witness :
  let db := run_actions example_db_active
              [lifecycle (call_cancel 1); plan_deletion 1;
               lifecycle (call_create 3000 3001
                            (SubscriptionCreate.mk 2 None 1))] in
  Subscription.user_id (example_row (Some CANCELLED) false) ∈ users db ∧
  ∃ pid, Subscription.plan_id (example_row (Some CANCELLED) false) = Some pid ∧
         is_Some (plans db !! pid).
Proof.
  intros db.
  apply (referential_integrity_preserved example_db_active _
           ltac:(solve_ref_integrity) 0%nat).
  reflexivity.
Defined.


Lemma get_subscription_by_user_two_current_witness :
  SubscriptionService.get_subscription_by_user 1 example_db_two_current =
    (Raise MultipleResultsFound, example_db_two_current) ∧
  get_user_subscription 1 1 example_db_two_current =
    (Raise MultipleResultsFound, example_db_two_current) ∧
  status_code MultipleResultsFound = 500.
Proof.
  apply (get_subscription_by_user_two_current example_db_two_current 1
           0 1 (example_row (Some INACTIVE) true)
           (Subscription.mk 2 1 (Some 2) (Some ACTIVE) 3000 1209600003000
              (Some true) 3001)).
  - discriminate.
  - reflexivity.
  - split; [reflexivity|]. by right.
  - reflexivity.
  - split; [reflexivity|]. by left.
Defined.

Lemma update_subscription_without_plan_spec_witness :
  (∃ s',
     SubscriptionService.update_subscription 7000 7001 1
       (SubscriptionUpdate.mk None (Some (Some false)) None) example_db_active
       = (Ok s', with_subscriptions [s'] example_db_active) ∧
     Subscription.auto_renew s' = Some false ∧
     Subscription.status s' = Some ACTIVE ∧
     Subscription.end_date s' = 2592000001000) ∧
  SubscriptionService.update_subscription 7000 7001 1
    (SubscriptionUpdate.mk None None None) example_db_active =
    (Ok (example_row (Some ACTIVE) true), example_db_active).
Proof.
  split.
  - destruct (update_subscription_without_plan_spec example_db_active
                7000 7001 1
                (SubscriptionUpdate.mk None (Some (Some false)) None)
                0 (example_row (Some ACTIVE) true))
      as (s' & Hrun & Har & Hst & Hend & _);
      [solve_the_active|reflexivity|].
    exists s'. split_and!; [exact Hrun|exact Har|exact Hst|exact Hend].
  - destruct (update_subscription_without_plan_spec example_db_active
                7000 7001 1 (SubscriptionUpdate.mk None None None)
                0 (example_row (Some ACTIVE) true))
      as (s' & _ & _ & _ & _ & _ & Hnoop);
      [solve_the_active|reflexivity|].
    apply Hnoop; reflexivity.
Defined.

Lemma update_and_cancel_raise_unchanged_witness :
  (SubscriptionService.update_subscription 7000 7001 1
     (SubscriptionUpdate.mk (Some (Some 9)) (Some (Some false)) None)
     example_db_active).2 = example_db_active ∧
  (SubscriptionService.cancel_subscription 2 example_db_active).2
    = example_db_active.
Proof.
  destruct (update_and_cancel_raise_unchanged example_db_active)
    as [Hupdate Hcancel].
  split.
  - apply (Hupdate 7000 7001 1
             (SubscriptionUpdate.mk (Some (Some 9)) (Some (Some false)) None)
             (NotFoundException "Plan not found or inactive")).
    vm_compute. reflexivity.
  - apply (Hcancel 2
             (NotFoundException "No active subscription found for user")).
    vm_compute. reflexivity.
Defined.

Lemma update_subscription_plan_not_found_witness :
  SubscriptionService.update_subscription 7000 7001 1
    (SubscriptionUpdate.mk (Some (Some 3)) (Some (Some false)) None)
    example_db_active =
    (Raise (NotFoundException "Plan not found or inactive"), example_db_active) ∧
  SubscriptionService.update_subscription 7000 7001 1
    (SubscriptionUpdate.mk (Some None) None None) example_db_active =
    (Raise (NotFoundException "Plan not found or inactive"), example_db_active).
Proof.
  split.
  - apply (update_subscription_plan_not_found example_db_active 7000 7001 1 _
             0 (example_row (Some ACTIVE) true) (Some 3));
      [solve_the_active|reflexivity|].
    intros pid p [= <-] [Hp Hact]. vm_compute in Hp.
    injection Hp as <-. discriminate Hact.
  - apply (update_subscription_plan_not_found example_db_active 7000 7001 1 _
             0 (example_row (Some ACTIVE) true) None);
      [solve_the_active|reflexivity|].
    intros pid p Hv. discriminate Hv.
Defined.

Lemma cancel_then_create_succeeds_witness :
  (SubscriptionService.create_subscription 3000 3001
     (SubscriptionCreate.mk 2 (Some true) 1)
     (SubscriptionService.cancel_subscription 1 example_db_active).2).1 =
  Ok (Subscription.mk 2 1 (Some 2) (Some ACTIVE) 3000 1209600003000
        (Some true) 3001).
Proof.
  destruct (cancel_then_create_succeeds example_db_active 1 0
              (example_row (Some ACTIVE) true) 3000 3001
              (SubscriptionCreate.mk 2 (Some true) 1)
              (Plan.mk "Fortnight" 14 (Some true)))
    as [Hrun _];
    [solve_the_active|reflexivity|vm_compute; reflexivity
    |split; reflexivity|solve_representable|].
  rewrite Hrun. reflexivity.
Defined.

Lemma expire_then_create_succeeds_witness :
  (SubscriptionService.create_subscription 6000 6001
     (SubscriptionCreate.mk 2 (Some true) 1)
     (SubscriptionService.expire_subscriptions 5000 example_db_three).2).1 =
  Ok (Subscription.mk 4 1 (Some 2) (Some ACTIVE) 6000 1209600006000
        (Some true) 6001).
Proof.
  destruct (expire_then_create_succeeds example_db_three 1 0
              (Subscription.mk 1 1 (Some 1) (Some ACTIVE) 1000 4999
                 (Some true) 1001)
              5000 6000 6001
              (SubscriptionCreate.mk 2 (Some true) 1)
              (Plan.mk "Fortnight" 14 (Some true)))
    as [Hrun _];
    [solve_the_active|simpl; lia|reflexivity|vm_compute; reflexivity
    |split; reflexivity|solve_representable|].
  rewrite Hrun. reflexivity.
Defined.

Lemma inactive_then_create_breaks_get_witness :
  let db2 :=
    run_calls example_db_active
      [call_update 2000 2001 1
         (SubscriptionUpdate.mk None None (Some (Some INACTIVE)));
       call_create 3000 3001 (SubscriptionCreate.mk 2 (Some true) 1)] in
  length (subscriptions db2) = 2%nat ∧
  subscriptions db2 !! 0%nat = Some (example_row (Some INACTIVE) true) ∧
  (∃ row, subscriptions db2 !! 1%nat = Some row ∧
          Subscription.user_id row = 1 ∧
          Subscription.status row = Some ACTIVE) ∧
  get_user_subscription 1 1 db2 = (Raise MultipleResultsFound, db2).
Proof.
  apply (inactive_then_create_breaks_get example_db_active 1 0
           (example_row (Some ACTIVE) true) 2000 2001 3000 3001
           (SubscriptionCreate.mk 2 (Some true) 1)
           (Plan.mk "Fortnight" 14 (Some true)));
    [solve_the_active|reflexivity|vm_compute; reflexivity|split; reflexivity
    |solve_representable].
Defined.

Lemma delete_plan_spec_witness :
  (PlanService.delete_plan 1 example_db_active).1 = Ok true ∧
  PlanService.get_plan_by_id 1 (PlanService.delete_plan 1 example_db_active).2 =
    (Ok (Some (Plan.mk "Basic" 30 (Some false))),
     (PlanService.delete_plan 1 example_db_active).2) ∧
  subscriptions (PlanService.delete_plan 1 example_db_active).2 =
    subscriptions example_db_active ∧
  PlanService.delete_plan 9 example_db_active =
    (Raise (NotFoundException "Plan not found"), example_db_active).
Proof.
  destruct (delete_plan_spec example_db_active 1) as [Hfound _].
  destruct (Hfound (Plan.mk "Basic" 30 (Some true)))
    as (Hret & Hget & _ & Hsubs & _); [vm_compute; reflexivity|].
  destruct (delete_plan_spec example_db_active 9) as [_ Hmissing].
  split_and!; [exact Hret|exact Hget|exact Hsubs|].
  apply Hmissing. vm_compute. reflexivity.
Defined.

Lemma delete_plan_twice_witness :
  PlanService.delete_plan 1 (PlanService.delete_plan 1 example_db_active).2 =
    (Ok true, (PlanService.delete_plan 1 example_db_active).2).
Proof.
  apply (delete_plan_twice example_db_active 1 (Plan.mk "Basic" 30 (Some true))).
  vm_compute. reflexivity.
Defined.

Lemma deleted_plan_takes_no_subscription_witness :
  let db1 := (PlanService.delete_plan 2 example_db_active).2 in
  (∃ detail,
     SubscriptionService.create_subscription 3000 3001
       (SubscriptionCreate.mk 2 (Some true) 2) db1 =
       (Raise (NotFoundException detail), db1)) ∧
  SubscriptionService.update_subscription 7000 7001 1
    (SubscriptionUpdate.mk (Some (Some 2)) None None) db1 =
    (Raise (NotFoundException "Plan not found or inactive"), db1).
Proof.
  intros db1.
  destruct (deleted_plan_takes_no_subscription example_db_active 2)
    as [Hcreate Hupdate].
  split.
  - apply Hcreate. reflexivity.
  - apply (Hupdate 7000 7001 1 _ 0%nat (example_row (Some ACTIVE) true));
      [|reflexivity].
    split; [reflexivity|]. split; [by split|].
    intros j s Hj [Hu Hs].
    change (subscriptions example_db_active !! j = Some s) in Hj.
    case_rows Hj. reflexivity.
Defined.

Lemma get_plan_spec_witness :
  PlansApi.get_plan 3 example_db_active =
    (Returned (Plan.mk "Annual Basic" 365 (Some false)), example_db_active) ∧
  PlansApi.get_plan 9 example_db_active =
    (NameError "HTTPException", example_db_active).
Proof.
  split.
  - destruct (get_plan_spec example_db_active 3) as [Hfound _].
    apply Hfound. vm_compute. reflexivity.
  - destruct (get_plan_spec example_db_active 9) as [_ Hmissing].
    apply Hmissing. vm_compute. reflexivity.
Defined.

Lemma switch_from_deleted_plan_witness :
  let db1 := (PlanService.delete_plan 1 example_db_active).2 in
  (∃ s',
     SubscriptionService.update_subscription 7000 7001 1
       (SubscriptionUpdate.mk (Some (Some 4)) None None) db1 =
       (Ok s', with_subscriptions [s'] db1) ∧
     Subscription.plan_id s' = Some 4 ∧
     Subscription.end_date s' = 2592000001000) ∧
  SubscriptionService.update_subscription 7000 7001 1
    (SubscriptionUpdate.mk (Some (Some 2)) None None) db1 =
    (Raise TypeError, db1).
Proof.
  intros db1. split.
  - destruct (switch_from_deleted_plan example_db_active 7000 7001 1
                (SubscriptionUpdate.mk (Some (Some 4)) None None)
                0 (example_row (Some ACTIVE) true)
                4 (Plan.mk "Pro" 30 (Some true))
                1 (Plan.mk "Basic" 30 (Some true)))
      as (_ & Hkeep & _);
      [solve_the_active|reflexivity|vm_compute; reflexivity|reflexivity
      |discriminate|split; reflexivity|].
    apply Hkeep. reflexivity.
  - destruct (switch_from_deleted_plan example_db_active 7000 7001 1
                (SubscriptionUpdate.mk (Some (Some 2)) None None)
                0 (example_row (Some ACTIVE) true)
                2 (Plan.mk "Fortnight" 14 (Some true))
                1 (Plan.mk "Basic" 30 (Some true)))
      as (_ & _ & Hraise);
      [solve_the_active|reflexivity|vm_compute; reflexivity|reflexivity
      |discriminate|split; reflexivity|].
    apply Hraise. simpl. lia.
Defined.
